(** * Guidance-to-command policy of the face guidance robot controller

    A shallow embedding of the decision logic of

    - [face_guidance_mqtt.py]  (class [FaceGuidanceMQTTApp]),
    - [face-detect-streaming.py] (class [FaceGuidanceApp]),
    - [MQTT.py] (the keyboard-only companion script),

    together with the properties of the classification thresholds, the
    rate limiter and the keyboard tables.

    Modelling conventions.

    - Pixel quantities and key codes are Python integers: [Z].
    - [time.time()] readings are modelled as exact rationals [Q]; the value
      the clock has when a function reads it is an argument of that
      function.  Rounding of binary floating point is outside the model.
    - Command names, topic names and classification labels are the string
      literals of the source.
    - The messaging client is an interface ([Channel]); [publish] either
      returns or raises an [Exception], and the model keeps what it
      accepted so that dispatches can be counted.
    - [print] and the [cv2] drawing calls of the MQTT application only
      affect the display and are left out; the streaming application, whose
      guidance is printed, keeps its standard output. *)

From Stdlib Require Import ZArith QArith Qabs Lqa Lia Bool List String Ascii.
From Stdlib Require Import Sorting.Sorted.
Import ListNotations.

Local Open Scope string_scope.
Local Open Scope Z_scope.

(** ** Python values shared by the three scripts *)

(** The two exception classes the source distinguishes: [except Exception]
    does not catch [KeyboardInterrupt], and the other way round. *)
Inductive exn : Type :=
| Exception (message : string)
| KeyboardInterrupt.

(** Outcome of a call that may raise. *)
Inductive result (A : Type) : Type :=
| Return (a : A)
| Raise (e : exn).
Arguments Return {A} a.
Arguments Raise {A} e.

(** [ord(c)] for a one-character literal. *)
Definition ord (c : ascii) : Z := Z.of_N (N_of_ascii c).

(** [a - b < c] and [a - b >= c] on clock readings. *)
Definition Qltb (x y : Q) : bool := negb (Qle_bool y x).
Definition Qgeb (x y : Q) : bool := Qle_bool y x.

(** ** The command channel (paho [mqtt.Client])

    [publish c topic payload] gives the client after the call and [None]
    when the call returned, [Some msg] when it raised [Exception(msg)].
    [sent] lists what the client accepted, most recent first: a call that
    returns adds its message, a call that raises adds nothing. *)
Class Channel (C : Type) : Type := {
  publish : C -> string -> string -> C * option string;
  sent : C -> list (string * string);
  publish_returns : forall c topic payload c',
    publish c topic payload = (c', None) ->
    sent c' = (topic, payload) :: sent c;
  publish_raises : forall c topic payload c' msg,
    publish c topic payload = (c', Some msg) ->
    sent c' = sent c
}.

(** A client driven by a script: each call consumes one entry, [None] for a
    call that goes through and [Some msg] for one that raises; once the
    script is used up every call goes through. *)
Record ScriptedClient : Type := {
  delivered : list (string * string);
  script : list (option string)
}.

Definition scripted_publish (c : ScriptedClient) (topic payload : string)
  : ScriptedClient * option string :=
  match script c with
  | Some msg :: rest => ({| delivered := delivered c; script := rest |}, Some msg)
  | None :: rest =>
      ({| delivered := (topic, payload) :: delivered c; script := rest |}, None)
  | [] => ({| delivered := (topic, payload) :: delivered c; script := [] |}, None)
  end.

#[export] Instance ScriptedChannel : Channel ScriptedClient.
Proof.
  refine {| publish := scripted_publish; sent := delivered |}.
  - intros c topic payload c'. unfold scripted_publish.
    destruct (script c) as [|[msg|] rest]; intros E; inversion E; reflexivity.
  - intros c topic payload c' msg. unfold scripted_publish.
    destruct (script c) as [|[m|] rest]; intros E; inversion E; reflexivity.
Defined.

(** A connected client that has sent nothing and never fails. *)
Definition fresh_client : ScriptedClient := {| delivered := []; script := [] |}.

(** ** face_guidance_mqtt.py *)

Module FaceGuidanceMQTT.

Definition OPTIMAL_FACE_WIDTH : Z := 150.
Definition TOO_CLOSE_THRESHOLD : Z := 200.
Definition TOO_FAR_THRESHOLD : Z := 100.
Definition FRAME_CENTER_THRESHOLD : Z := 50.
Definition TOPIC : string := "VR_control".
Definition COMMAND_RATE_LIMIT : Q := 1 # 2.

Section App.

Context {C : Type} `{Channel C}.

(** The attributes of [FaceGuidanceMQTTApp] the policy reads and writes. *)
Record App : Type := {
  mqtt_client : C;
  last_command_time : Q;
  last_command : option string
}.

(** State left by [__init__]. *)
Definition init (client : C) : App :=
  {| mqtt_client := client; last_command_time := 0; last_command := None |}.

(** [command == self.last_command], where [last_command] may be [None]. *)
Definition is_last_command (command : string) (self : App) : bool :=
  match last_command self with
  | Some c => String.eqb command c
  | None => false
  end.

(** [send_mqtt_command(self, command)], [current_time] being the reading of
    [time.time()] taken on entry. *)
Definition send_mqtt_command (current_time : Q) (command : string) (self : App)
  : App * bool :=
  if Qltb (current_time - last_command_time self) COMMAND_RATE_LIMIT then
    (self, false)
  else if is_last_command command self then
    (self, false)
  else
    match publish (mqtt_client self) TOPIC command with
    | (client, None) =>
        ({| mqtt_client := client;
            last_command_time := current_time;
            last_command := Some command |}, true)
    | (client, Some _) =>
        ({| mqtt_client := client;
            last_command_time := last_command_time self;
            last_command := last_command self |}, false)
    end.

(** [analyze_face_distance(self, face_width)]: the label returned, and the
    dispatch attempt made on the way. *)
Definition analyze_face_distance (current_time : Q) (face_width : Z) (self : App)
  : App * string :=
  if face_width >? TOO_CLOSE_THRESHOLD then
    (fst (send_mqtt_command current_time "Backward" self), "TOO_CLOSE")
  else if face_width <? TOO_FAR_THRESHOLD then
    (fst (send_mqtt_command current_time "Forward" self), "TOO_FAR")
  else
    (self, "OPTIMAL").

(** [analyze_face_position(self, face_center_x, frame_width)]. *)
Definition analyze_face_position (current_time : Q) (face_center_x frame_width : Z)
  (self : App) : App * string :=
  let frame_center_x := frame_width / 2 in
  if face_center_x <? frame_center_x - FRAME_CENTER_THRESHOLD then
    (fst (send_mqtt_command current_time "Right" self), "TOO_LEFT")
  else if face_center_x >? frame_center_x + FRAME_CENTER_THRESHOLD then
    (fst (send_mqtt_command current_time "Left" self), "TOO_RIGHT")
  else
    (self, "CENTERED").

(** A rectangle [(x, y, w, h)] as [detectMultiScale] gives it. *)
Definition box : Type := Z * Z * Z * Z.

(** The [for (x, y, w, h) in faces] loop of [draw_guidance], [width] being
    [frame.shape[1]].  Face number [i] makes its distance attempt with the
    clock at [clock (2 i)] and its position attempt with the clock at
    [clock (2 i + 1)]; [n] is the index of the next attempt. *)
Fixpoint guide_faces (clock : nat -> Q) (n : nat) (width : Z) (faces : list box)
  (self : App) : App :=
  match faces with
  | [] => self
  | (x, _, w, _) :: rest =>
      let face_center_x := x + w / 2 in
      let (self1, distance_status) := analyze_face_distance (clock n) w self in
      let (self2, position_status) :=
        analyze_face_position (clock (S n)) face_center_x width self1 in
      guide_faces clock (S (S n)) width rest self2
  end.

Definition draw_guidance (clock : nat -> Q) (width : Z) (faces : list box)
  (self : App) : App :=
  guide_faces clock 0 width faces self.

(** The [if]/[elif] chain of [handle_manual_control] that selects [cmd]. *)
Definition manual_command (key : Z) : option string :=
  if key =? ord "w" then Some "Forward"
  else if key =? ord "s" then Some "Backward"
  else if key =? ord "a" then Some "Left"
  else if key =? ord "d" then Some "Right"
  else if key =? ord "q" then Some "RotateLeft"
  else if key =? ord "e" then Some "RotateRight"
  else if key =? ord " " then Some "Stop"
  else None.

(** [handle_manual_control(self, key)]; the clock is read only when a
    command was selected. *)
Definition handle_manual_control (key : Z) (current_time : Q) (self : App) : App :=
  match manual_command key with
  | Some cmd =>
      if Qgeb (current_time - last_command_time self) COMMAND_RATE_LIMIT then
        match publish (mqtt_client self) TOPIC cmd with
        | (client, None) =>
            {| mqtt_client := client;
               last_command_time := current_time;
               last_command := Some cmd |}
        | (client, Some _) =>
            {| mqtt_client := client;
               last_command_time := last_command_time self;
               last_command := last_command self |}
        end
      else self
  | None => self
  end.

(** [detect_faces(self, frame)]: the detector is called without a handler,
    so what it raises goes on to the caller. *)
Definition detect_faces (detector : result (list box)) : result (list box) :=
  match detector with
  | Return faces => Return faces
  | Raise e => Raise e
  end.

(** What the environment supplies during one pass through the [while] loop
    of [run]. *)
Record Tick : Type := {
  ret : bool;                      (* first component of [self.cap.read()] *)
  width : Z;                       (* [frame.shape[1]] *)
  detector : result (list box);    (* what [detectMultiScale] does on the frame *)
  clock : nat -> Q;                (* clock during the guidance attempts *)
  waitKey : Z;                     (* [cv2.waitKey(1)] *)
  key_time : Q                     (* clock during [handle_manual_control] *)
}.

(** How a pass through the loop body ends. *)
Inductive control : Type :=
| Continue                 (* the loop goes on to the next frame *)
| Break                    (* [break]: frame not grabbed, or quit key *)
| Interrupted              (* [except KeyboardInterrupt] *)
| Propagated (e : exn).    (* leaves [run] through [finally] *)

(** The quit test of [run]. *)
Definition quit_requested (key : Z) : bool :=
  (key =? ord "q") || (key =? 27).

(** One pass through the body of [while True] in [run]. *)
Definition run_iteration (t : Tick) (self : App) : App * control :=
  if negb (ret t) then (self, Break)
  else
    match detect_faces (detector t) with
    | Raise KeyboardInterrupt => (self, Interrupted)
    | Raise e => (self, Propagated e)
    | Return faces =>
        let self1 :=
          if (0 <? Z.of_nat (List.length faces)) then
            draw_guidance (clock t) (width t) faces self
          else self in
        let key := Z.land (waitKey t) 255 in
        let self2 := handle_manual_control key (key_time t) self1 in
        if quit_requested key then (self2, Break) else (self2, Continue)
    end.

(** [run]: the loop over the frames the camera delivers.  [Continue] means
    the loop is still running when the given frames are used up. *)
Fixpoint run (ticks : list Tick) (self : App) : App * control :=
  match ticks with
  | [] => (self, Continue)
  | t :: rest =>
      match run_iteration t self with
      | (self', Continue) => run rest self'
      | stopped => stopped
      end
  end.

(** The [try] block both dispatch paths run once their tests are passed,
    named for use in statements: the state it leaves, and whether [publish]
    returned. *)
Definition after_publish (now : Q) (command : string) (self : App) : App * bool :=
  match publish (mqtt_client self) TOPIC command with
  | (client, None) =>
      ({| mqtt_client := client;
          last_command_time := now;
          last_command := Some command |}, true)
  | (client, Some _) =>
      ({| mqtt_client := client;
          last_command_time := last_command_time self;
          last_command := last_command self |}, false)
  end.

(** *** Sequences of dispatch attempts *)

(** A dispatch attempt of either path. *)
Inductive attempt : Type :=
| Automated (command : string)   (* [send_mqtt_command(command)] *)
| Manual (key : Z).              (* [handle_manual_control(key)] *)

Definition step (a : attempt) (now : Q) (self : App) : App :=
  match a with
  | Automated command => fst (send_mqtt_command now command self)
  | Manual key => handle_manual_control key now self
  end.

(** A dispatch happened between two states when the channel accepted one
    more message. *)
Definition dispatched (before after : App) : bool :=
  (List.length (sent (mqtt_client before)) <? List.length (sent (mqtt_client after)))%nat.

(** Clock readings of the attempts that were dispatched, in order. *)
Fixpoint dispatch_times (attempts : list (attempt * Q)) (self : App) : list Q :=
  match attempts with
  | [] => []
  | (a, now) :: rest =>
      let self' := step a now self in
      if dispatched self self' then now :: dispatch_times rest self'
      else dispatch_times rest self'
  end.

(** Values [last_command_time] takes after each attempt. *)
Fixpoint command_times (attempts : list (attempt * Q)) (self : App) : list Q :=
  match attempts with
  | [] => []
  | (a, now) :: rest =>
      let self' := step a now self in
      last_command_time self' :: command_times rest self'
  end.

(** *** The loop as a sequence of attempts *)

(** The command an attempt asks for, if any. *)
Definition attempt_command (a : attempt) : option string :=
  match a with
  | Automated command => Some command
  | Manual key => manual_command key
  end.

(** The state after a sequence of attempts. *)
Fixpoint attempt_all (attempts : list (attempt * Q)) (self : App) : App :=
  match attempts with
  | [] => self
  | (a, now) :: rest => attempt_all rest (step a now self)
  end.

(** The call of [send_mqtt_command] that [analyze_face_distance] makes. *)
Definition distance_attempts (now : Q) (face_width : Z) : list (attempt * Q) :=
  if face_width >? TOO_CLOSE_THRESHOLD then [(Automated "Backward", now)]
  else if face_width <? TOO_FAR_THRESHOLD then [(Automated "Forward", now)]
  else [].

(** The call of [send_mqtt_command] that [analyze_face_position] makes. *)
Definition position_attempts (now : Q) (face_center_x frame_width : Z)
  : list (attempt * Q) :=
  if face_center_x <? frame_width / 2 - FRAME_CENTER_THRESHOLD then
    [(Automated "Right", now)]
  else if face_center_x >? frame_width / 2 + FRAME_CENTER_THRESHOLD then
    [(Automated "Left", now)]
  else [].

(** The calls of [send_mqtt_command] made by the loop of [draw_guidance]. *)
Fixpoint guidance_attempts (clock : nat -> Q) (n : nat) (width : Z)
  (faces : list box) : list (attempt * Q) :=
  match faces with
  | [] => []
  | (x, _, w, _) :: rest =>
      (distance_attempts (clock n) w
       ++ position_attempts (clock (S n)) (x + w / 2) width
       ++ guidance_attempts clock (S (S n)) width rest)%list
  end.

(** How a pass through the loop body ends, read off its inputs. *)
Definition tick_control (t : Tick) : control :=
  if negb (ret t) then Break
  else
    match detector t with
    | Raise KeyboardInterrupt => Interrupted
    | Raise e => Propagated e
    | Return _ =>
        if quit_requested (Z.land (waitKey t) 255) then Break else Continue
    end.

(** The attempts of one pass through the loop body: those of
    [draw_guidance], then the one of [handle_manual_control]. *)
Definition tick_attempts (t : Tick) : list (attempt * Q) :=
  if negb (ret t) then []
  else
    match detector t with
    | Raise _ => []
    | Return faces =>
        (guidance_attempts (clock t) 0 (width t) faces
         ++ [(Manual (Z.land (waitKey t) 255), key_time t)])%list
    end.

(** The attempts of [run], up to the pass that ends the loop. *)
Fixpoint run_attempts (ticks : list Tick) : list (attempt * Q) :=
  match ticks with
  | [] => []
  | t :: rest =>
      (tick_attempts t
       ++ match tick_control t with
          | Continue => run_attempts rest
          | _ => []
          end)%list
  end.

End App.

Arguments App C : clear implicits.

End FaceGuidanceMQTT.

(** ** face-detect-streaming.py *)

Module FaceGuidance.

Definition OPTIMAL_FACE_WIDTH : Z := 150.
Definition TOO_CLOSE_THRESHOLD : Z := 200.
Definition TOO_FAR_THRESHOLD : Z := 100.
Definition FRAME_CENTER_THRESHOLD : Z := 50.

(** Standard output, most recent line first. *)
Definition stdout : Type := list string.

(** [detect_faces(self, frame)]: an [Exception] of the detector is logged
    and answered with the empty list. *)
Definition detect_faces (detector : result (list (Z * Z * Z * Z))) (out : stdout)
  : stdout * result (list (Z * Z * Z * Z)) :=
  match detector with
  | Return face_rects => (out, Return face_rects)
  | Raise (Exception e) => (("Face detection error: " ++ e) :: out, Return [])
  | Raise KeyboardInterrupt => (out, Raise KeyboardInterrupt)
  end.

Definition analyze_face_distance (face_width : Z) (out : stdout) : stdout * string :=
  if face_width >? TOO_CLOSE_THRESHOLD then ("S" :: out, "TOO_CLOSE")
  else if face_width <? TOO_FAR_THRESHOLD then ("W" :: out, "TOO_FAR")
  else (out, "OPTIMAL").

Definition analyze_face_position (face_center_x frame_width : Z) (out : stdout)
  : stdout * string :=
  let frame_center_x := frame_width / 2 in
  if face_center_x <? frame_center_x - FRAME_CENTER_THRESHOLD then
    ("D" :: out, "TOO_LEFT")
  else if face_center_x >? frame_center_x + FRAME_CENTER_THRESHOLD then
    ("A" :: out, "TOO_RIGHT")
  else (out, "CENTERED").

Fixpoint draw_guidance (width : Z) (face_rects : list (Z * Z * Z * Z)) (out : stdout)
  : stdout :=
  match face_rects with
  | [] => out
  | (x, _, w, _) :: rest =>
      let face_center_x := x + w / 2 in
      let (out1, distance_status) := analyze_face_distance w out in
      let (out2, position_status) := analyze_face_position face_center_x width out1 in
      draw_guidance width rest out2
  end.

(** How a pass through the loop body of [run] ends. *)
Inductive control : Type :=
| Continue
| Break
| Interrupted
| Propagated (e : exn).

(** One pass through the body of [while True] in [run]. *)
Definition run_iteration (ret : bool) (width : Z)
  (detector : result (list (Z * Z * Z * Z))) (waitKey : Z) (out : stdout)
  : stdout * control :=
  if negb ret then ("Failed to grab frame" :: out, Break)
  else
    match detect_faces detector out with
    | (out1, Raise KeyboardInterrupt) =>
        ("Shutting down..." :: "" :: out1, Interrupted)
    | (out1, Raise e) => (out1, Propagated e)
    | (out1, Return face_rects) =>
        let out2 :=
          if (0 <? Z.of_nat (List.length face_rects)) then
            draw_guidance width face_rects out1
          else out1 in
        let key := Z.land waitKey 255 in
        if key =? ord "q" then (out2, Break) else (out2, Continue)
    end.

(** What the environment supplies during one pass through the loop. *)
Record Tick : Type := {
  ret : bool;                                  (* first component of [self.cap.read()] *)
  width : Z;                                   (* [frame.shape[1]] *)
  detector : result (list (Z * Z * Z * Z));    (* what [detectMultiScale] does *)
  waitKey : Z                                  (* [cv2.waitKey(1)] *)
}.

(** [run]: the loop over the frames the camera delivers; [Continue] means
    the loop is still running when the given frames are used up. *)
Fixpoint run (ticks : list Tick) (out : stdout) : stdout * control :=
  match ticks with
  | [] => (out, Continue)
  | t :: rest =>
      match run_iteration (ret t) (width t) (detector t) (waitKey t) out with
      | (out', Continue) => run rest out'
      | stopped => stopped
      end
  end.

End FaceGuidance.

(** ** MQTT.py *)

Module MQTT.

Definition TOPIC : string := "VR_control".

(** [str.lower()] on the ASCII letters. *)
Definition lower_ascii (c : ascii) : ascii :=
  let n := N_of_ascii c in
  if (65 <=? n)%N && (n <=? 90)%N then ascii_of_N (n + 32) else c.

Fixpoint lower (s : string) : string :=
  match s with
  | EmptyString => EmptyString
  | String c rest => String (lower_ascii c) (lower rest)
  end.

(** The [if]/[elif] chain of [main]: the value of [cmd], and whether the
    chain ended in [break]. *)
Definition select (key : string) : string * bool :=
  if String.eqb key "w" then ("Forward", false)
  else if String.eqb key "s" then ("Backward", false)
  else if String.eqb key "a" then ("Left", false)
  else if String.eqb key "d" then ("Right", false)
  else if String.eqb key " " then ("Stop", false)
  else if String.eqb key "q" then ("", true)
  else ("", false).

(** How [main] stands after the keys read so far. *)
Inductive status : Type :=
| Reading                  (* blocked in [get_key()] *)
| Quit                     (* left the loop through [break] *)
| Crashed (e : exn).       (* [publish] raised; nothing catches it *)

Section Main.

Context {C : Type} `{Channel C}.

(** The [while True] loop of [main] on the keys [get_key()] returns. *)
Fixpoint main (keys : list string) (client : C) : C * status :=
  match keys with
  | [] => (client, Reading)
  | k :: rest =>
      let key := lower k in
      let (cmd, stop) := select key in
      if stop then (client, Quit)
      else if negb (String.eqb cmd "") then
        match publish client TOPIC cmd with
        | (client', None) => main rest client'
        | (client', Some msg) => (client', Crashed (Exception msg))
        end
      else main rest client
  end.

(** [publish] goes through on each of the next [n] calls with this
    message. *)
Fixpoint accepts (n : nat) (topic payload : string) (client : C) : Prop :=
  match n with
  | O => True
  | S n' =>
      match publish client topic payload with
      | (client', None) => accepts n' topic payload client'
      | (_, Some _) => False
      end
  end.

End Main.

End MQTT.

(** ** Sample states on the scripted client *)

(** The application after a dispatch of ["Forward"] at time 1. *)
Definition after_forward : FaceGuidanceMQTT.App ScriptedClient :=
  {| FaceGuidanceMQTT.mqtt_client :=
       {| delivered := [(FaceGuidanceMQTT.TOPIC, "Forward")]; script := [] |};
     FaceGuidanceMQTT.last_command_time := 1;
     FaceGuidanceMQTT.last_command := Some "Forward" |}.

(** The application at start-up on a client whose first [publish] raises. *)
Definition failing_once : FaceGuidanceMQTT.App ScriptedClient :=
  FaceGuidanceMQTT.init {| delivered := []; script := [Some "broker unreachable"] |}.

(** A pass at time 1 over a frame with two faces, both small and to the
    left, while [w] is pressed. *)
Definition crowded_pass : FaceGuidanceMQTT.Tick :=
  {| FaceGuidanceMQTT.ret := true;
     FaceGuidanceMQTT.width := 640;
     FaceGuidanceMQTT.detector := Return [(60, 100, 80, 80); (10, 300, 60, 60)];
     FaceGuidanceMQTT.clock := fun _ => 1%Q;
     FaceGuidanceMQTT.waitKey := 119;
     FaceGuidanceMQTT.key_time := 1%Q |}.

(** Two frames of the streaming application: the detector raises on the
    first and finds a small face on the second; no key is pressed. *)
Definition streaming_frames : list FaceGuidance.Tick :=
  [ {| FaceGuidance.ret := true; FaceGuidance.width := 640;
       FaceGuidance.detector := Raise (Exception "cv2.error");
       FaceGuidance.waitKey := -1 |};
    {| FaceGuidance.ret := true; FaceGuidance.width := 640;
       FaceGuidance.detector := Return [(280, 200, 80, 80)];
       FaceGuidance.waitKey := -1 |} ].

(** A client that never got its connection: every [publish] raises and
    nothing is ever accepted. *)
Inductive DownClient : Type := Down.

#[export] Instance DownChannel : Channel DownClient.
Proof.
  refine {| publish := fun c _ _ => (c, Some "not connected"); sent := fun _ => [] |}.
  - intros c topic payload c' E. inversion E.
  - intros c topic payload c' msg E. reflexivity.
Defined.

(** * Properties *)

(** ** Comparisons of clock readings *)

Lemma Qltb_true (x y : Q) : Qltb x y = true <-> (x < y)%Q.
Proof.
  unfold Qltb. rewrite negb_true_iff. split.
  - intros E. apply Qnot_le_lt. intros L.
    apply Qle_bool_iff in L. congruence.
  - intros L. destruct (Qle_bool y x) eqn:E; [|reflexivity].
    apply Qle_bool_iff in E. exfalso. exact (Qlt_not_le _ _ L E).
Qed.

Lemma Qltb_false (x y : Q) : Qltb x y = false <-> (y <= x)%Q.
Proof.
  unfold Qltb. rewrite negb_false_iff. apply Qle_bool_iff.
Qed.

Lemma Qgeb_true (x y : Q) : Qgeb x y = true <-> (y <= x)%Q.
Proof. unfold Qgeb. apply Qle_bool_iff. Qed.

Lemma Qgeb_false (x y : Q) : Qgeb x y = false <-> (x < y)%Q.
Proof.
  unfold Qgeb. split.
  - intros E. apply Qnot_le_lt. intros L.
    apply Qle_bool_iff in L. congruence.
  - intros L. destruct (Qle_bool y x) eqn:E; [|reflexivity].
    apply Qle_bool_iff in E. exfalso. exact (Qlt_not_le _ _ L E).
Qed.

(** ** The rate limiter of face_guidance_mqtt.py *)

Section Dispatch.

Import FaceGuidanceMQTT.

Context {C : Type} `{Channel C}.

Lemma is_last_command_true (command : string) (self : App C) :
  is_last_command command self = true <-> last_command self = Some command.
Proof.
  unfold is_last_command. destruct (last_command self) as [c|].
  - rewrite String.eqb_eq. split; intros E; [subst|inversion E]; reflexivity.
  - split; discriminate.
Qed.

Lemma is_last_command_false (command : string) (self : App C) :
  is_last_command command self = false <-> last_command self <> Some command.
Proof.
  rewrite <- is_last_command_true. destruct (is_last_command command self).
  - split; [discriminate | intros N; exfalso; apply N; reflexivity].
  - split; [discriminate | reflexivity].
Qed.

Lemma send_mqtt_command_passes (now : Q) (command : string) (self : App C) :
  (COMMAND_RATE_LIMIT <= now - last_command_time self)%Q ->
  last_command self <> Some command ->
  send_mqtt_command now command self = after_publish now command self.
Proof.
  intros Hrate Hnew. unfold send_mqtt_command, after_publish.
  apply Qltb_false in Hrate. rewrite Hrate.
  apply is_last_command_false in Hnew. rewrite Hnew. reflexivity.
Qed.

Lemma handle_manual_control_passes (key : Z) (cmd : string) (now : Q) (self : App C) :
  manual_command key = Some cmd ->
  (COMMAND_RATE_LIMIT <= now - last_command_time self)%Q ->
  handle_manual_control key now self = fst (after_publish now cmd self).
Proof.
  intros Hkey Hrate. unfold handle_manual_control, after_publish.
  rewrite Hkey. apply Qgeb_true in Hrate. rewrite Hrate.
  destruct (publish (mqtt_client self) TOPIC cmd) as [client [msg|]]; reflexivity.
Qed.

Lemma send_mqtt_command_too_early (now : Q) (command : string) (self : App C) :
  (now - last_command_time self < COMMAND_RATE_LIMIT)%Q ->
  send_mqtt_command now command self = (self, false).
Proof.
  intros Hrate. unfold send_mqtt_command.
  apply Qltb_true in Hrate. rewrite Hrate. reflexivity.
Qed.

Lemma send_mqtt_command_repeated (now : Q) (command : string) (self : App C) :
  last_command self = Some command ->
  send_mqtt_command now command self = (self, false).
Proof.
  intros Hsame. unfold send_mqtt_command.
  apply is_last_command_true in Hsame. rewrite Hsame.
  destruct (Qltb _ _); reflexivity.
Qed.

(** C1: the automated dispatch returns [False] and leaves the application
    state (the channel, [last_command] and [last_command_time]) as it was
    whenever less than [COMMAND_RATE_LIMIT] has passed since
    [last_command_time], and also whenever the candidate is [last_command],
    whatever time has passed. *)
Theorem send_mqtt_command_suppressed (now : Q) (candidate : string) (self : App C) :
  (now - last_command_time self < COMMAND_RATE_LIMIT)%Q \/
  last_command self = Some candidate ->
  send_mqtt_command now candidate self = (self, false).
Proof.
  intros [Hrate | Hsame].
  - apply send_mqtt_command_too_early. assumption.
  - apply send_mqtt_command_repeated. assumption.
Qed.

(** C6: an automated attempt that passes the rate limit and the
    de-duplication test calls [publish] with the topic and the candidate.
    When [publish] returns, [last_command] is the candidate,
    [last_command_time] is the clock reading and the result is [True];
    when it raises, the result is [False] and both fields are as before, so
    that the same candidate passes both tests again at any later reading. *)
Theorem send_mqtt_command_publishes (now : Q) (candidate : string) (self : App C) :
  (COMMAND_RATE_LIMIT <= now - last_command_time self)%Q ->
  last_command self <> Some candidate ->
  send_mqtt_command now candidate self =
    (let (client, raised) := publish (mqtt_client self) TOPIC candidate in
     match raised with
     | None =>
         ({| mqtt_client := client;
             last_command_time := now;
             last_command := Some candidate |}, true)
     | Some _ =>
         ({| mqtt_client := client;
             last_command_time := last_command_time self;
             last_command := last_command self |}, false)
     end) /\
  (forall client msg later,
     publish (mqtt_client self) TOPIC candidate = (client, Some msg) ->
     (now <= later)%Q ->
     let self' := fst (send_mqtt_command now candidate self) in
     mqtt_client self' = client /\
     send_mqtt_command later candidate self' = after_publish later candidate self').
Proof.
  intros Hrate Hnew. split.
  - rewrite send_mqtt_command_passes by assumption. reflexivity.
  - intros client msg later Hpub Hlater.
    rewrite send_mqtt_command_passes by assumption.
    unfold after_publish at 1 2. rewrite Hpub. cbn [fst mqtt_client]. split; [reflexivity|].
    apply send_mqtt_command_passes; cbn [last_command_time last_command].
    + unfold COMMAND_RATE_LIMIT in *. lra.
    + assumption.
Qed.

(** C7: for a key of the table, the manual path calls [publish] as soon as
    [COMMAND_RATE_LIMIT] has passed since [last_command_time], also when the
    command is [last_command] (where the automated path does nothing); it
    does nothing before that; and when the automated path would publish as
    well, both leave the same state. *)
Theorem handle_manual_control_dispatch (key : Z) (cmd : string) (now : Q) (self : App C) :
  manual_command key = Some cmd ->
  ((COMMAND_RATE_LIMIT <= now - last_command_time self)%Q ->
   handle_manual_control key now self =
     (let (client, raised) := publish (mqtt_client self) TOPIC cmd in
      match raised with
      | None =>
          {| mqtt_client := client;
             last_command_time := now;
             last_command := Some cmd |}
      | Some _ =>
          {| mqtt_client := client;
             last_command_time := last_command_time self;
             last_command := last_command self |}
      end)) /\
  ((COMMAND_RATE_LIMIT <= now - last_command_time self)%Q ->
   last_command self = Some cmd ->
   send_mqtt_command now cmd self = (self, false) /\
   handle_manual_control key now self = fst (after_publish now cmd self)) /\
  ((now - last_command_time self < COMMAND_RATE_LIMIT)%Q ->
   handle_manual_control key now self = self) /\
  ((COMMAND_RATE_LIMIT <= now - last_command_time self)%Q ->
   last_command self <> Some cmd ->
   handle_manual_control key now self = fst (send_mqtt_command now cmd self)).
Proof.
  intros Hkey. repeat split.
  - intros Hrate. rewrite (handle_manual_control_passes key cmd) by assumption.
    unfold after_publish.
    destruct (publish (mqtt_client self) TOPIC cmd) as [client [msg|]]; reflexivity.
  - apply send_mqtt_command_repeated. assumption.
  - apply handle_manual_control_passes; assumption.
  - intros Hrate. unfold handle_manual_control. rewrite Hkey.
    apply Qgeb_false in Hrate. rewrite Hrate. reflexivity.
  - intros Hrate Hnew. rewrite send_mqtt_command_passes by assumption.
    apply handle_manual_control_passes; assumption.
Qed.

(** An attempt of either path is a dispatch exactly when it moves
    [last_command_time], and then it moves it to the clock reading, which is
    at least [COMMAND_RATE_LIMIT] after the previous value. *)
Lemma step_cases (a : attempt) (now : Q) (self : App C) :
  (dispatched self (step a now self) = false /\
   last_command_time (step a now self) = last_command_time self /\
   last_command (step a now self) = last_command self) \/
  (dispatched self (step a now self) = true /\
   last_command_time (step a now self) = now /\
   (COMMAND_RATE_LIMIT <= now - last_command_time self)%Q).
Proof.
  assert (Hsame : dispatched self self = false)
    by (unfold dispatched; apply Nat.ltb_irrefl).
  assert (Hpub : forall command,
    (COMMAND_RATE_LIMIT <= now - last_command_time self)%Q ->
    let self' := fst (after_publish now command self) in
    (dispatched self self' = false /\
     last_command_time self' = last_command_time self /\
     last_command self' = last_command self) \/
    (dispatched self self' = true /\ last_command_time self' = now /\
     (COMMAND_RATE_LIMIT <= now - last_command_time self)%Q)).
  { intros command Hrate. unfold after_publish, dispatched.
    destruct (publish (mqtt_client self) TOPIC command) as [client [msg|]] eqn:E;
      cbn [fst mqtt_client last_command_time last_command].
    - left. rewrite (publish_raises _ _ _ _ _ E).
      rewrite Nat.ltb_irrefl. repeat split.
    - right. rewrite (publish_returns _ _ _ _ E). cbn [List.length].
      rewrite (proj2 (Nat.ltb_lt _ _) (Nat.lt_succ_diag_r _)).
      repeat split. assumption. }
  destruct a as [command | key]; cbn [step].
  - unfold send_mqtt_command.
    destruct (Qltb _ _) eqn:Hrate; [left; repeat split; assumption|].
    destruct (is_last_command command self); [left; repeat split; assumption|].
    apply Qltb_false in Hrate. exact (Hpub command Hrate).
  - unfold handle_manual_control.
    destruct (manual_command key) as [cmd|]; [|left; repeat split; assumption].
    destruct (Qgeb _ _) eqn:Hrate; [|left; repeat split; assumption].
    apply Qgeb_true in Hrate. specialize (Hpub cmd Hrate).
    unfold after_publish in Hpub.
    destruct (publish (mqtt_client self) TOPIC cmd) as [client [msg|]];
      exact Hpub.
Qed.

(** Along any sequence of attempts, every dispatch is at least
    [COMMAND_RATE_LIMIT] after the initial [last_command_time] and after
    every earlier dispatch, and [last_command_time] never goes down. *)
Lemma dispatch_trace_invariant (attempts : list (attempt * Q)) :
  forall self : App C,
    Forall (fun t => (COMMAND_RATE_LIMIT <= t - last_command_time self)%Q)
      (dispatch_times attempts self) /\
    ForallOrdPairs (fun t1 t2 => (COMMAND_RATE_LIMIT <= t2 - t1)%Q)
      (dispatch_times attempts self) /\
    Forall (fun t => (last_command_time self <= t)%Q)
      (command_times attempts self) /\
    StronglySorted Qle (command_times attempts self).
Proof.
  induction attempts as [|[a now] rest IH]; intros self.
  - cbn. repeat split; constructor.
  - cbn [dispatch_times command_times].
    destruct (IH (step a now self)) as (Hfirst & Hpairs & Hlow & Hsorted).
    destruct (step_cases a now self) as [(Hd & Ht & _) | (Hd & Ht & Hrate)];
      rewrite Hd; rewrite Ht in *.
    + repeat split; try assumption.
      * constructor; [apply Qle_refl | assumption].
      * constructor; assumption.
    + repeat split.
      * constructor; [assumption|].
        eapply Forall_impl; [|exact Hfirst].
        intros t Ht'. cbv beta in Ht'. unfold COMMAND_RATE_LIMIT in *. lra.
      * constructor; assumption.
      * constructor; [unfold COMMAND_RATE_LIMIT in *; lra|].
        eapply Forall_impl; [|exact Hlow].
        intros t Ht'. cbv beta in Ht'. unfold COMMAND_RATE_LIMIT in *. lra.
      * constructor; assumption.
Qed.

(** C3: along every sequence of automated and manual attempts whose clock
    readings do not decrease, [last_command_time] never decreases (starting
    from its initial value), and any two dispatches, of whatever command and
    on whichever path, are at least [COMMAND_RATE_LIMIT] apart. *)
Theorem dispatch_rate_limited (attempts : list (attempt * Q)) (self : App C) :
  Sorted Qle (map snd attempts) ->
  StronglySorted Qle (last_command_time self :: command_times attempts self) /\
  ForallOrdPairs (fun t1 t2 => (COMMAND_RATE_LIMIT <= t2 - t1)%Q)
    (dispatch_times attempts self).
Proof.
  intros _.
  destruct (dispatch_trace_invariant attempts self) as (_ & Hpairs & Hlow & Hsorted).
  split; [constructor|]; assumption.
Qed.

End Dispatch.

(** *** The rate limiter on the scripted client *)

Lemma send_mqtt_command_suppressed_witness :
  ((1 # 4) - FaceGuidanceMQTT.last_command_time (FaceGuidanceMQTT.init fresh_client)
     < FaceGuidanceMQTT.COMMAND_RATE_LIMIT)%Q /\
  FaceGuidanceMQTT.send_mqtt_command (1 # 4) "Right" (FaceGuidanceMQTT.init fresh_client)
    = (FaceGuidanceMQTT.init fresh_client, false) /\
  FaceGuidanceMQTT.send_mqtt_command 60 "Forward" after_forward
    = (after_forward, false).
Proof.
  split; [reflexivity|]. split.
  - apply send_mqtt_command_suppressed. left. reflexivity.
  - apply send_mqtt_command_suppressed. right. reflexivity.
Defined.

Lemma send_mqtt_command_publishes_witness :
  FaceGuidanceMQTT.send_mqtt_command 1 "Forward" failing_once
    = ({| FaceGuidanceMQTT.mqtt_client := fresh_client;
          FaceGuidanceMQTT.last_command_time := 0;
          FaceGuidanceMQTT.last_command := None |}, false) /\
  FaceGuidanceMQTT.send_mqtt_command (8 # 5) "Forward"
      (fst (FaceGuidanceMQTT.send_mqtt_command 1 "Forward" failing_once))
    = ({| FaceGuidanceMQTT.mqtt_client :=
            {| delivered := [("VR_control", "Forward")]; script := [] |};
          FaceGuidanceMQTT.last_command_time := 8 # 5;
          FaceGuidanceMQTT.last_command := Some "Forward" |}, true).
Proof.
  assert (Hrate : (FaceGuidanceMQTT.COMMAND_RATE_LIMIT
                   <= 1 - FaceGuidanceMQTT.last_command_time failing_once)%Q)
    by (cbv; discriminate).
  assert (Hnew : FaceGuidanceMQTT.last_command failing_once <> Some "Forward")
    by discriminate.
  destruct (send_mqtt_command_publishes 1 "Forward" failing_once Hrate Hnew)
    as [Hfirst Hretry].
  split.
  - rewrite Hfirst. reflexivity.
  - destruct (Hretry fresh_client "broker unreachable" (8 # 5)) as [_ Hsecond].
    + reflexivity.
    + cbv; discriminate.
    + rewrite Hsecond. reflexivity.
Defined.

Lemma handle_manual_control_dispatch_witness :
  FaceGuidanceMQTT.manual_command 119 = Some "Forward" /\
  FaceGuidanceMQTT.handle_manual_control 119 2 after_forward
    = {| FaceGuidanceMQTT.mqtt_client :=
           {| delivered := [("VR_control", "Forward"); ("VR_control", "Forward")];
              script := [] |};
         FaceGuidanceMQTT.last_command_time := 2;
         FaceGuidanceMQTT.last_command := Some "Forward" |} /\
  FaceGuidanceMQTT.send_mqtt_command 2 "Forward" after_forward = (after_forward, false) /\
  FaceGuidanceMQTT.handle_manual_control 119 (5 # 4) after_forward = after_forward.
Proof.
  destruct (handle_manual_control_dispatch 119 "Forward" 2 after_forward eq_refl)
    as (Hpub & Hdup & _ & _).
  destruct (handle_manual_control_dispatch 119 "Forward" (5 # 4) after_forward eq_refl)
    as (_ & _ & Hearly & _).
  split; [reflexivity|]. split; [|split].
  - rewrite Hpub; [reflexivity | cbv; discriminate].
  - apply Hdup; [cbv; discriminate | reflexivity].
  - apply Hearly. reflexivity.
Defined.

Lemma dispatch_rate_limited_witness :
  let attempts :=
    [ (FaceGuidanceMQTT.Automated "Forward", 1%Q);
      (FaceGuidanceMQTT.Automated "Right", 6 # 5);
      (FaceGuidanceMQTT.Manual 119, 9 # 5);
      (FaceGuidanceMQTT.Automated "Forward", 3%Q);
      (FaceGuidanceMQTT.Automated "Right", 3%Q) ] in
  Sorted Qle (map snd attempts) /\
  FaceGuidanceMQTT.dispatch_times attempts (FaceGuidanceMQTT.init fresh_client)
    = [1%Q; 9 # 5; 3%Q] /\
  ForallOrdPairs
    (fun t1 t2 => (FaceGuidanceMQTT.COMMAND_RATE_LIMIT <= t2 - t1)%Q)
    (FaceGuidanceMQTT.dispatch_times attempts (FaceGuidanceMQTT.init fresh_client)).
Proof.
  intros attempts.
  assert (Hsorted : Sorted Qle (map snd attempts))
    by (repeat constructor; cbv; discriminate).
  split; [exact Hsorted|]. split; [reflexivity|].
  exact (proj2 (dispatch_rate_limited attempts (FaceGuidanceMQTT.init fresh_client) Hsorted)).
Defined.

(** ** Classification in face_guidance_mqtt.py *)

Section Classification.

Import FaceGuidanceMQTT.

Context {C : Type} `{Channel C}.

(** The label [analyze_face_distance] returns, case by case. *)
Lemma analyze_face_distance_label (now : Q) (w : Z) (self : App C) :
  (200 < w /\ snd (analyze_face_distance now w self) = "TOO_CLOSE") \/
  (w < 100 /\ snd (analyze_face_distance now w self) = "TOO_FAR") \/
  (100 <= w <= 200 /\ snd (analyze_face_distance now w self) = "OPTIMAL").
Proof.
  unfold analyze_face_distance, TOO_CLOSE_THRESHOLD, TOO_FAR_THRESHOLD.
  destruct (Z.gtb_spec w 200); [left; split; [lia | reflexivity]|].
  destruct (Z.ltb_spec w 100); right; [left | right]; (split; [lia | reflexivity]).
Qed.

(** The label [analyze_face_position] returns, case by case. *)
Lemma analyze_face_position_label (now : Q) (cx fw : Z) (self : App C) :
  (cx < fw / 2 - 50 /\ snd (analyze_face_position now cx fw self) = "TOO_LEFT") \/
  (fw / 2 + 50 < cx /\ snd (analyze_face_position now cx fw self) = "TOO_RIGHT") \/
  (fw / 2 - 50 <= cx <= fw / 2 + 50 /\
   snd (analyze_face_position now cx fw self) = "CENTERED").
Proof.
  unfold analyze_face_position, FRAME_CENTER_THRESHOLD. cbv zeta.
  destruct (Z.ltb_spec cx (fw / 2 - 50)); [left; split; [lia | reflexivity]|].
  destruct (Z.gtb_spec cx (fw / 2 + 50)); right; [left | right];
    (split; [lia | reflexivity]).
Qed.

(** C4: for every integer face width [w], the distance label is
    ["TOO_CLOSE"] exactly when [w > 200], ["TOO_FAR"] exactly when
    [w < 100], and ["OPTIMAL"] exactly when [100 <= w <= 200]. *)
Theorem analyze_face_distance_thresholds (now : Q) (w : Z) (self : App C) :
  (snd (analyze_face_distance now w self) = "TOO_CLOSE" <-> w > 200) /\
  (snd (analyze_face_distance now w self) = "TOO_FAR" <-> w < 100) /\
  (snd (analyze_face_distance now w self) = "OPTIMAL" <-> 100 <= w <= 200).
Proof.
  destruct (analyze_face_distance_label now w self)
    as [[Hw E] | [[Hw E] | [Hw E]]]; rewrite E;
    repeat split; intros; try discriminate; try lia.
Qed.

(** C5: for every face centre and every positive frame width, the position
    label is ["TOO_LEFT"] exactly when the centre is below
    [frame_width // 2 - 50], ["TOO_RIGHT"] exactly when it is above
    [frame_width // 2 + 50], and ["CENTERED"] in every other case, where
    [frame_width // 2] is the quotient rounded down. *)
Theorem analyze_face_position_thresholds (now : Q) (face_center_x frame_width : Z)
  (self : App C) :
  0 < frame_width ->
  let label := snd (analyze_face_position now face_center_x frame_width self) in
  let half := frame_width / 2 in
  (2 * half <= frame_width < 2 * half + 2) /\
  (label = "TOO_LEFT" <-> face_center_x < half - 50) /\
  (label = "TOO_RIGHT" <-> face_center_x > half + 50) /\
  (label = "CENTERED" <->
   ~ face_center_x < half - 50 /\ ~ face_center_x > half + 50).
Proof.
  intros Hpos label half. subst label half.
  split.
  - pose proof (Z.div_mod frame_width 2 ltac:(lia)) as Hdiv.
    pose proof (Z.mod_pos_bound frame_width 2 ltac:(lia)) as Hmod. lia.
  - destruct (analyze_face_position_label now face_center_x frame_width self)
      as [[Hc E] | [[Hc E] | [Hc E]]]; rewrite E;
      repeat split; intros; try discriminate; try lia.
Qed.

(** C2, as the code has it: the label each classification returns depends on
    the face width, respectively on the face centre and the frame width,
    and on nothing else (not on the clock, the channel or the dispatch
    state).  The functions are not free of effects: a ["TOO_CLOSE"],
    ["TOO_FAR"], ["TOO_LEFT"] or ["TOO_RIGHT"] result comes with one
    automated dispatch attempt of ["Backward"], ["Forward"], ["Right"] or
    ["Left"]; only ["OPTIMAL"] and ["CENTERED"] leave the channel and the
    dispatch state as they were. *)
Theorem classification_label_and_effect (now : Q) (w cx fw : Z) (self : App C) :
  (forall now' (other : App C),
     snd (analyze_face_distance now' w other) = snd (analyze_face_distance now w self)) /\
  (forall now' (other : App C),
     snd (analyze_face_position now' cx fw other)
     = snd (analyze_face_position now cx fw self)) /\
  (snd (analyze_face_distance now w self) = "TOO_CLOSE" ->
   fst (analyze_face_distance now w self) = fst (send_mqtt_command now "Backward" self)) /\
  (snd (analyze_face_distance now w self) = "TOO_FAR" ->
   fst (analyze_face_distance now w self) = fst (send_mqtt_command now "Forward" self)) /\
  (snd (analyze_face_distance now w self) = "OPTIMAL" ->
   fst (analyze_face_distance now w self) = self) /\
  (snd (analyze_face_position now cx fw self) = "TOO_LEFT" ->
   fst (analyze_face_position now cx fw self) = fst (send_mqtt_command now "Right" self)) /\
  (snd (analyze_face_position now cx fw self) = "TOO_RIGHT" ->
   fst (analyze_face_position now cx fw self) = fst (send_mqtt_command now "Left" self)) /\
  (snd (analyze_face_position now cx fw self) = "CENTERED" ->
   fst (analyze_face_position now cx fw self) = self).
Proof.
  split; [|split].
  - intros now' other. unfold analyze_face_distance.
    destruct (w >? TOO_CLOSE_THRESHOLD); [reflexivity|].
    destruct (w <? TOO_FAR_THRESHOLD); reflexivity.
  - intros now' other. unfold analyze_face_position. cbv zeta.
    destruct (cx <? fw / 2 - FRAME_CENTER_THRESHOLD); [reflexivity|].
    destruct (cx >? fw / 2 + FRAME_CENTER_THRESHOLD); reflexivity.
  - unfold analyze_face_distance, analyze_face_position. cbv zeta.
    destruct (w >? TOO_CLOSE_THRESHOLD); destruct (w <? TOO_FAR_THRESHOLD);
      destruct (cx <? fw / 2 - FRAME_CENTER_THRESHOLD);
      destruct (cx >? fw / 2 + FRAME_CENTER_THRESHOLD);
      cbn [fst snd]; repeat split; intros E; try discriminate E; reflexivity.
Qed.

End Classification.

Lemma analyze_face_position_thresholds_witness :
  0 < 640 /\
  snd (FaceGuidanceMQTT.analyze_face_position 1 100 640 (FaceGuidanceMQTT.init fresh_client))
    = "TOO_LEFT" /\
  100 < 640 / 2 - 50.
Proof.
  pose proof (analyze_face_position_thresholds 1 100 640
                (FaceGuidanceMQTT.init fresh_client) eq_refl) as (_ & Hleft & _).
  split; [reflexivity|]. split; [|reflexivity].
  apply Hleft. reflexivity.
Defined.

Lemma classification_label_and_effect_witness :
  snd (FaceGuidanceMQTT.analyze_face_distance 1 250 (FaceGuidanceMQTT.init fresh_client))
    = "TOO_CLOSE" /\
  fst (FaceGuidanceMQTT.analyze_face_distance 1 250 (FaceGuidanceMQTT.init fresh_client))
    = fst (FaceGuidanceMQTT.send_mqtt_command 1 "Backward" (FaceGuidanceMQTT.init fresh_client)) /\
  snd (FaceGuidanceMQTT.analyze_face_position 1 320 640 after_forward) = "CENTERED" /\
  fst (FaceGuidanceMQTT.analyze_face_position 1 320 640 after_forward) = after_forward.
Proof.
  pose proof (classification_label_and_effect 1 250 320 640
                (FaceGuidanceMQTT.init fresh_client)) as (_ & _ & Hclose & _).
  pose proof (classification_label_and_effect 1 250 320 640 after_forward)
    as (_ & _ & _ & _ & _ & _ & _ & Hcentered).
  split; [reflexivity|]. split; [apply Hclose; reflexivity|].
  split; [reflexivity|]. apply Hcentered; reflexivity.
Defined.

(** C2, as stated, fails: classifying a face 250 pixels wide one second
    after start-up publishes ["Backward"] and writes both fields of the
    dispatch state; classifying a face centred at 100 of 640 publishes
    ["Right"]. *)
Lemma classification_dispatches :
  let self := FaceGuidanceMQTT.init fresh_client in
  let after_distance := fst (FaceGuidanceMQTT.analyze_face_distance 1 250 self) in
  let after_position := fst (FaceGuidanceMQTT.analyze_face_position 1 100 640 self) in
  sent (FaceGuidanceMQTT.mqtt_client self) = [] /\
  sent (FaceGuidanceMQTT.mqtt_client after_distance) = [("VR_control", "Backward")] /\
  FaceGuidanceMQTT.last_command after_distance = Some "Backward" /\
  FaceGuidanceMQTT.last_command_time after_distance = 1%Q /\
  after_distance <> self /\
  sent (FaceGuidanceMQTT.mqtt_client after_position) = [("VR_control", "Right")] /\
  FaceGuidanceMQTT.last_command after_position = Some "Right" /\
  after_position <> self.
Proof.
  cbv zeta. repeat split; discriminate.
Qed.

(** ** Keyboard and main loop of face_guidance_mqtt.py *)

Section Loop.

Import FaceGuidanceMQTT.

Context {C : Type} `{Channel C}.

(** The keys that select a command are the seven of the table. *)
Lemma manual_command_some (key : Z) (cmd : string) :
  manual_command key = Some cmd ->
  In key [ord "w"; ord "s"; ord "a"; ord "d"; ord "q"; ord "e"; ord " "].
Proof.
  unfold manual_command.
  repeat match goal with
  | |- context [if ?k =? ?c then _ else _] =>
      destruct (Z.eqb_spec k c) as [-> | _]; [intros _; cbn; tauto|]
  end.
  discriminate.
Qed.

(** C8, as the code has it: each of the seven keys of the table selects its
    command; any other key code selects none and leaves the application
    state as it was; the loop ends on [ESC] (27), which selects no command,
    and on ['q'], which is also the key of ["RotateLeft"]: a pass that reads
    ['q'] first hands it to the manual dispatch path and then ends the
    loop. *)
Theorem keyboard_table :
  (manual_command (ord "w") = Some "Forward" /\
   manual_command (ord "s") = Some "Backward" /\
   manual_command (ord "a") = Some "Left" /\
   manual_command (ord "d") = Some "Right" /\
   manual_command (ord "q") = Some "RotateLeft" /\
   manual_command (ord "e") = Some "RotateRight" /\
   manual_command (ord " ") = Some "Stop") /\
  (forall key now (self : App C),
     ~ In key [ord "w"; ord "s"; ord "a"; ord "d"; ord "q"; ord "e"; ord " "] ->
     manual_command key = None /\ handle_manual_control key now self = self) /\
  (forall key, quit_requested key = true <-> key = 27 \/ key = ord "q") /\
  manual_command 27 = None /\
  (forall width faces clock key_time (self : App C),
     run_iteration
       {| ret := true; width := width; detector := Return faces; clock := clock;
          waitKey := ord "q"; key_time := key_time |} self
     = (handle_manual_control (ord "q") key_time
          (if 0 <? Z.of_nat (List.length faces)
           then draw_guidance clock width faces self else self),
        Break)).
Proof.
  split; [repeat split|]. split; [|split; [|split]].
  - intros key now self Hout.
    assert (E : manual_command key = None).
    { destruct (manual_command key) as [cmd|] eqn:E; [|reflexivity].
      exfalso. apply Hout. exact (manual_command_some key cmd E). }
    split; [exact E|]. unfold handle_manual_control. rewrite E. reflexivity.
  - intros key. unfold quit_requested. rewrite orb_true_iff, !Z.eqb_eq. tauto.
  - reflexivity.
  - intros. reflexivity.
Qed.

(** C9 on the code: when the detector raises an [Exception] on a frame,
    [run] of the MQTT application stops there with the exception, the state
    being the one before the frame and the remaining frames unprocessed;
    had the detector found no face (and no key been pressed), [run] would
    have gone on with the remaining frames.  [detect_faces] of the
    streaming application answers the same exception with the empty list,
    and its loop continues. *)
Theorem detector_exception_ends_run
  (frame_width : Z) (clk : nat -> Q) (t_key : Q) (msg : string)
  (rest : list Tick) (self : App C) (out : FaceGuidance.stdout) :
  let frame outcome :=
    {| ret := true; width := frame_width; detector := outcome; clock := clk;
       waitKey := -1; key_time := t_key |} in
  run (frame (Raise (Exception msg)) :: rest) self
    = (self, Propagated (Exception msg)) /\
  run (frame (Return []) :: rest) self = run rest self /\
  FaceGuidance.detect_faces (Raise (Exception msg)) out
    = (("Face detection error: " ++ msg) :: out, Return []) /\
  FaceGuidance.run_iteration true frame_width (Raise (Exception msg)) (-1) out
    = (("Face detection error: " ++ msg) :: out, FaceGuidance.Continue) /\
  FaceGuidance.run_iteration true frame_width (Return []) (-1) out
    = (out, FaceGuidance.Continue).
Proof.
  cbv zeta. repeat split.
Qed.

End Loop.

(** C8, as stated, fails: the key code of ['q'] ends the loop and is the
    command key of ["RotateLeft"]. *)
Lemma quit_key_is_command_key :
  FaceGuidanceMQTT.quit_requested (ord "q") = true /\
  FaceGuidanceMQTT.manual_command (ord "q") = Some "RotateLeft" /\
  ~ (forall key, FaceGuidanceMQTT.quit_requested key = true ->
                 FaceGuidanceMQTT.manual_command key = None).
Proof.
  split; [reflexivity|]. split; [reflexivity|].
  intros Hdistinct. specialize (Hdistinct (ord "q") eq_refl). discriminate.
Qed.

Lemma keyboard_table_witness :
  ~ In 120 [ord "w"; ord "s"; ord "a"; ord "d"; ord "q"; ord "e"; ord " "] /\
  FaceGuidanceMQTT.manual_command 120 = None /\
  FaceGuidanceMQTT.handle_manual_control 120 60 after_forward = after_forward.
Proof.
  assert (Hout : ~ In 120 [ord "w"; ord "s"; ord "a"; ord "d"; ord "q"; ord "e"; ord " "]).
  { cbn. intros [E | [E | [E | [E | [E | [E | [E | []]]]]]]]; discriminate E. }
  split; [exact Hout|].
  exact (proj1 (proj2 (@keyboard_table ScriptedClient _)) 120 60%Q after_forward Hout).
Defined.

(** After a frame on which the detector raises, a frame showing a face 80
    pixels wide is never looked at: nothing is published, where a frame
    without faces in its place lets ["Forward"] go out. *)
Example detector_exception_skips_next_frame :
  let frame outcome :=
    {| FaceGuidanceMQTT.ret := true; FaceGuidanceMQTT.width := 640;
       FaceGuidanceMQTT.detector := outcome; FaceGuidanceMQTT.clock := fun _ => 1%Q;
       FaceGuidanceMQTT.waitKey := -1; FaceGuidanceMQTT.key_time := 1%Q |} in
  let self := FaceGuidanceMQTT.init fresh_client in
  let face := Return [(280, 200, 80, 80)] in
  FaceGuidanceMQTT.run [frame (Raise (Exception "cv2.error")); frame face] self
    = (self, FaceGuidanceMQTT.Propagated (Exception "cv2.error")) /\
  sent (FaceGuidanceMQTT.mqtt_client
          (fst (FaceGuidanceMQTT.run [frame (Return []); frame face] self)))
    = [("VR_control", "Forward")] /\
  snd (FaceGuidanceMQTT.run [frame (Return []); frame face] self)
    = FaceGuidanceMQTT.Continue.
Proof.
  cbv zeta. repeat split.
Qed.

(** ** MQTT.py *)

Section Keyboard.

Import MQTT.

Context {C : Type} `{Channel C}.

(** A pass through the loop of [main] on a command key. *)
Lemma main_command_key (key cmd : string) (rest : list string) (client : C) :
  In (lower key, cmd)
     [("w", "Forward"); ("s", "Backward"); ("a", "Left"); ("d", "Right");
      (" ", "Stop")] ->
  main (key :: rest) client =
    match publish client TOPIC cmd with
    | (client', None) => main rest client'
    | (client', Some msg) => (client', Crashed (Exception msg))
    end.
Proof.
  intros Hkey. cbn [main].
  cbn [In] in Hkey.
  destruct Hkey as [E | [E | [E | [E | [E | []]]]]];
    inversion E as [[Hlower Hcmd]]; reflexivity.
Qed.

(** C10: in the keyboard-only script, a press of [w], [s], [a], [d] or the
    space bar calls [publish] with the corresponding command whatever was
    sent before (the loop keeps no state but the client); as long as the
    channel takes the messages, [n] presses of the same key make the
    channel accept [n] copies of the command on top of what it had, and
    the loop is then waiting for the next key. *)
Theorem main_publishes_every_press (key cmd : string) (n : nat) (client : C) :
  In (lower key, cmd)
     [("w", "Forward"); ("s", "Backward"); ("a", "Left"); ("d", "Right");
      (" ", "Stop")] ->
  accepts n TOPIC cmd client ->
  (forall rest (any : C),
     main (key :: rest) any =
       match publish any TOPIC cmd with
       | (client', None) => main rest client'
       | (client', Some msg) => (client', Crashed (Exception msg))
       end) /\
  sent (fst (main (repeat key n) client)) = (repeat (TOPIC, cmd) n ++ sent client)%list /\
  snd (main (repeat key n) client) = Reading.
Proof.
  intros Hkey Hacc. split.
  - intros rest any. apply main_command_key. assumption.
  - revert client Hacc. induction n as [|n IH]; intros client Hacc.
    + split; reflexivity.
    + cbn [repeat]. rewrite (main_command_key key cmd) by assumption.
      cbn [accepts] in Hacc.
      destruct (publish client TOPIC cmd) as [client' [msg|]] eqn:E; [contradiction|].
      destruct (IH client' Hacc) as [Hsent Hstatus].
      split; [|exact Hstatus].
      rewrite Hsent, (publish_returns _ _ _ _ E).
      rewrite repeat_cons, <- app_assoc. reflexivity.
Qed.

End Keyboard.

Lemma main_publishes_every_press_witness :
  In (MQTT.lower "W", "Forward")
     [("w", "Forward"); ("s", "Backward"); ("a", "Left"); ("d", "Right");
      (" ", "Stop")] /\
  MQTT.accepts 3 MQTT.TOPIC "Forward" fresh_client /\
  sent (fst (MQTT.main ["W"; "W"; "W"] fresh_client))
    = [("VR_control", "Forward"); ("VR_control", "Forward"); ("VR_control", "Forward")] /\
  snd (MQTT.main ["W"; "W"; "W"] fresh_client) = MQTT.Reading.
Proof.
  assert (Hkey : In (MQTT.lower "W", "Forward")
     [("w", "Forward"); ("s", "Backward"); ("a", "Left"); ("d", "Right");
      (" ", "Stop")]) by (left; reflexivity).
  assert (Hacc : MQTT.accepts 3 MQTT.TOPIC "Forward" fresh_client) by exact I.
  split; [exact Hkey|]. split; [exact Hacc|].
  exact (proj2 (main_publishes_every_press "W" "Forward" 3 fresh_client Hkey Hacc)).
Defined.

(** ** Worked frames

    One pass of the loop on the scripted client, all clock readings of the
    pass being equal and no key being pressed. *)

Section Frames.

Import FaceGuidanceMQTT.

(** A face 250 pixels wide centred at 320 of 640 is ["TOO_CLOSE"] and
    ["CENTERED"]: ["Backward"] goes out and nothing else. *)
Example frame_too_close_centered :
  snd (analyze_face_distance 1 250 (init fresh_client)) = "TOO_CLOSE" /\
  snd (analyze_face_position 1 320 640 (init fresh_client)) = "CENTERED" /\
  sent (mqtt_client (draw_guidance (fun _ => 1%Q) 640 [(195, 100, 250, 250)]
                       (init fresh_client)))
    = [("VR_control", "Backward")].
Proof. repeat split. Qed.

(** A face 80 pixels wide centred at 100 of 640 is ["TOO_FAR"] and
    ["TOO_LEFT"]: both commands are attempted, and with both attempts at the
    same reading only ["Forward"] passes the limiter. *)
Example frame_too_far_left :
  snd (analyze_face_distance 1 80 (init fresh_client)) = "TOO_FAR" /\
  snd (analyze_face_position 1 100 640 (init fresh_client)) = "TOO_LEFT" /\
  sent (mqtt_client (draw_guidance (fun _ => 1%Q) 640 [(60, 100, 80, 80)]
                       (init fresh_client)))
    = [("VR_control", "Forward")].
Proof. repeat split. Qed.

(** A frame without faces, with no key pressed, leaves the state alone. *)
Example frame_without_faces :
  run_iteration
    {| ret := true; width := 640; detector := Return []; clock := fun _ => 60%Q;
       waitKey := -1; key_time := 60 |} after_forward
  = (after_forward, Continue).
Proof. reflexivity. Qed.

(** Two frames a tenth of a second apart, both ["TOO_FAR"]: the second
    ["Forward"] is not sent. *)
Example frames_same_state :
  dispatch_times [(Automated "Forward", 1%Q); (Automated "Forward", 11 # 10)]
    (init fresh_client) = [1%Q].
Proof. reflexivity. Qed.

(** [publish] raises on the first ["Forward"]; the attempt 0.6 seconds later
    is the one that goes out and the only one recorded. *)
Example frames_retry_after_failure :
  dispatch_times [(Automated "Forward", 1%Q); (Automated "Forward", 8 # 5)]
    failing_once = [8 # 5] /\
  command_times [(Automated "Forward", 1%Q); (Automated "Forward", 8 # 5)]
    failing_once = [0%Q; 8 # 5].
Proof. split; reflexivity. Qed.

End Frames.

(** ** What the loop of face_guidance_mqtt.py publishes *)

Section Log.

Import FaceGuidanceMQTT.

Context {C : Type} `{Channel C}.

(** One attempt either leaves the log and the dispatch state as they were,
    or puts the command it asks for on top of the log and records it. *)
Lemma step_outcome (a : attempt) (now : Q) (self : App C) :
  (sent (mqtt_client (step a now self)) = sent (mqtt_client self) /\
   last_command (step a now self) = last_command self /\
   last_command_time (step a now self) = last_command_time self /\
   dispatched self (step a now self) = false) \/
  (exists cmd,
     attempt_command a = Some cmd /\
     sent (mqtt_client (step a now self)) = (TOPIC, cmd) :: sent (mqtt_client self) /\
     last_command (step a now self) = Some cmd /\
     last_command_time (step a now self) = now /\
     dispatched self (step a now self) = true /\
     (COMMAND_RATE_LIMIT <= now - last_command_time self)%Q /\
     (a = Automated cmd -> last_command self <> Some cmd)).
Proof.
  assert (Hsame : dispatched self self = false)
    by (unfold dispatched; apply Nat.ltb_irrefl).
  assert (Hpub : forall cmd,
    attempt_command a = Some cmd ->
    (COMMAND_RATE_LIMIT <= now - last_command_time self)%Q ->
    (a = Automated cmd -> last_command self <> Some cmd) ->
    step a now self = fst (after_publish now cmd self) ->
    (sent (mqtt_client (step a now self)) = sent (mqtt_client self) /\
     last_command (step a now self) = last_command self /\
     last_command_time (step a now self) = last_command_time self /\
     dispatched self (step a now self) = false) \/
    (exists cmd,
       attempt_command a = Some cmd /\
       sent (mqtt_client (step a now self)) = (TOPIC, cmd) :: sent (mqtt_client self) /\
       last_command (step a now self) = Some cmd /\
       last_command_time (step a now self) = now /\
       dispatched self (step a now self) = true /\
       (COMMAND_RATE_LIMIT <= now - last_command_time self)%Q /\
       (a = Automated cmd -> last_command self <> Some cmd))).
  { intros cmd Hcmd Hrate Hnew ->. unfold after_publish, dispatched.
    destruct (publish (mqtt_client self) TOPIC cmd) as [client [msg|]] eqn:E;
      cbn [fst mqtt_client last_command_time last_command].
    - left. rewrite (publish_raises _ _ _ _ _ E).
      rewrite Nat.ltb_irrefl. repeat split.
    - right. exists cmd. rewrite (publish_returns _ _ _ _ E). cbn [List.length].
      rewrite (proj2 (Nat.ltb_lt _ _) (Nat.lt_succ_diag_r _)).
      repeat split; assumption. }
  destruct a as [command | key].
  - destruct (Qltb (now - last_command_time self) COMMAND_RATE_LIMIT) eqn:Hrate.
    + left. cbn [step]. apply Qltb_true in Hrate.
      rewrite send_mqtt_command_too_early by assumption. cbn [fst]. repeat split. assumption.
    + apply Qltb_false in Hrate.
      destruct (is_last_command command self) eqn:Hlast.
      * left. cbn [step]. apply is_last_command_true in Hlast.
        rewrite send_mqtt_command_repeated by assumption. cbn [fst]. repeat split. assumption.
      * apply is_last_command_false in Hlast.
        apply (Hpub command); try assumption; try reflexivity.
        -- intros E. inversion E. assumption.
        -- cbn [step]. rewrite send_mqtt_command_passes by assumption. reflexivity.
  - destruct (manual_command key) as [cmd|] eqn:Hkey.
    + destruct (Qgeb (now - last_command_time self) COMMAND_RATE_LIMIT) eqn:Hrate.
      * apply Qgeb_true in Hrate. apply (Hpub cmd); try assumption.
        -- discriminate.
        -- cbn [step]. apply handle_manual_control_passes; assumption.
      * left. cbn [step]. unfold handle_manual_control. rewrite Hkey, Hrate.
        repeat split. assumption.
    + left. cbn [step]. unfold handle_manual_control. rewrite Hkey.
      repeat split. assumption.
Qed.

Lemma attempt_all_app (first second : list (attempt * Q)) :
  forall self : App C,
    attempt_all (first ++ second) self = attempt_all second (attempt_all first self).
Proof.
  induction first as [|[a now] first IH]; intros self; cbn [app attempt_all].
  - reflexivity.
  - apply IH.
Qed.

Lemma attempt_all_sent_length (attempts : list (attempt * Q)) :
  forall self : App C,
    List.length (sent (mqtt_client (attempt_all attempts self)))
    = (List.length (dispatch_times attempts self)
       + List.length (sent (mqtt_client self)))%nat /\
    (List.length (dispatch_times attempts self) <= List.length attempts)%nat.
Proof.
  induction attempts as [|[a now] rest IH]; intros self.
  - split; reflexivity.
  - cbn [attempt_all dispatch_times].
    destruct (IH (step a now self)) as [Hlen Hle].
    destruct (step_outcome a now self)
      as [(Hs & _ & _ & Hd) | (cmd & _ & Hs & _ & _ & Hd & _)];
      rewrite Hd, Hlen, Hs; cbn [List.length]; split; lia.
Qed.

Lemma attempt_all_time_monotone (attempts : list (attempt * Q)) :
  forall self : App C,
    (last_command_time self <= last_command_time (attempt_all attempts self))%Q.
Proof.
  induction attempts as [|[a now] rest IH]; intros self; cbn [attempt_all].
  - apply Qle_refl.
  - eapply Qle_trans; [|apply IH].
    destruct (step_cases a now self) as [(_ & Ht & _) | (_ & Ht & Hrate)]; rewrite Ht.
    + apply Qle_refl.
    + unfold COMMAND_RATE_LIMIT in Hrate. lra.
Qed.

(** The readings of the dispatches are readings of the attempts. *)
Lemma dispatch_times_readings (P : Q -> Prop) (attempts : list (attempt * Q)) :
  forall self : App C,
    Forall (fun p => P (snd p)) attempts ->
    Forall P (dispatch_times attempts self).
Proof.
  induction attempts as [|[a now] rest IH]; intros self Hall.
  - constructor.
  - cbn [dispatch_times]. inversion Hall as [|? ? Hnow Hrest]; subst.
    destruct (dispatched self (step a now self)).
    + constructor; [exact Hnow | apply IH; exact Hrest].
    + apply IH; exact Hrest.
Qed.

Lemma attempt_all_window (attempts : list (attempt * Q)) (self : App C) (start : Q) :
  Forall (fun p => (start <= snd p /\ snd p < start + COMMAND_RATE_LIMIT)%Q) attempts ->
  (List.length (sent (mqtt_client (attempt_all attempts self)))
   <= S (List.length (sent (mqtt_client self))))%nat.
Proof.
  intros Hwindow.
  destruct (attempt_all_sent_length attempts self) as [Hlen _]. rewrite Hlen.
  pose proof (dispatch_times_readings
                (fun t => (start <= t /\ t < start + COMMAND_RATE_LIMIT)%Q)
                attempts self Hwindow) as Hin.
  destruct (dispatch_trace_invariant attempts self) as (_ & Hpairs & _).
  destruct (dispatch_times attempts self) as [|t1 [|t2 more]]; cbn [List.length]; try lia.
  exfalso.
  inversion Hpairs as [|? ? Hfirst _]; subst.
  inversion Hfirst as [|? ? Hapart _]; subst.
  inversion Hin as [|? ? [Hlo1 Hhi1] Hin']; subst.
  inversion Hin' as [|? ? [Hlo2 Hhi2] _]; subst.
  unfold COMMAND_RATE_LIMIT in *. lra.
Qed.

(** The messages a sequence of attempts adds to the log are on [TOPIC] and
    carry commands the attempts ask for. *)
Lemma attempt_all_log (allowed : list string) (attempts : list (attempt * Q)) :
  forall self : App C,
    Forall (fun p => forall cmd, attempt_command (fst p) = Some cmd -> In cmd allowed)
      attempts ->
    exists new,
      sent (mqtt_client (attempt_all attempts self)) = (new ++ sent (mqtt_client self))%list /\
      Forall (fun m => fst m = TOPIC /\ In (snd m) allowed) new /\
      (List.length new <= List.length attempts)%nat.
Proof.
  induction attempts as [|[a now] rest IH]; intros self Hall.
  - exists []. repeat split; constructor.
  - inversion Hall as [|? ? Ha Hrest]; subst. cbn [fst] in Ha.
    destruct (IH (step a now self) Hrest) as (new & Hsent & Hnew & Hlen).
    cbn [attempt_all].
    destruct (step_outcome a now self)
      as [(Hs & _) | (cmd & Hcmd & Hs & _)]; rewrite Hsent, Hs.
    + exists new. repeat split; [assumption | cbn [List.length]; lia].
    + exists (new ++ [(TOPIC, cmd)])%list. rewrite <- app_assoc. repeat split.
      * apply Forall_app. split; [assumption|].
        constructor; [|constructor]. split; [reflexivity | exact (Ha cmd Hcmd)].
      * rewrite length_app. cbn [List.length]. lia.
Qed.

(** *** The loop body as attempts *)

Lemma analyze_face_distance_attempts (now : Q) (w : Z) (self : App C) :
  fst (analyze_face_distance now w self) = attempt_all (distance_attempts now w) self.
Proof.
  unfold analyze_face_distance, distance_attempts.
  destruct (w >? TOO_CLOSE_THRESHOLD); [reflexivity|].
  destruct (w <? TOO_FAR_THRESHOLD); reflexivity.
Qed.

Lemma analyze_face_position_attempts (now : Q) (cx fw : Z) (self : App C) :
  fst (analyze_face_position now cx fw self)
  = attempt_all (position_attempts now cx fw) self.
Proof.
  unfold analyze_face_position, position_attempts. cbv zeta.
  destruct (cx <? fw / 2 - FRAME_CENTER_THRESHOLD); [reflexivity|].
  destruct (cx >? fw / 2 + FRAME_CENTER_THRESHOLD); reflexivity.
Qed.

Lemma guide_faces_attempts (clk : nat -> Q) (fw : Z) (faces : list box) :
  forall (n : nat) (self : App C),
    guide_faces clk n fw faces self
    = attempt_all (guidance_attempts clk n fw faces) self.
Proof.
  induction faces as [|[[[x y] w] h] rest IH]; intros n self;
    cbn [guide_faces guidance_attempts].
  - reflexivity.
  - rewrite !attempt_all_app.
    rewrite <- analyze_face_distance_attempts, <- analyze_face_position_attempts, <- IH.
    cbv zeta.
    destruct (analyze_face_distance (clk n) w self) as [self1 d]. cbn [fst].
    destruct (analyze_face_position (clk (S n)) (x + w / 2) fw self1) as [self2 p].
    reflexivity.
Qed.

Lemma run_iteration_attempts (t : Tick) (self : App C) :
  run_iteration t self = (attempt_all (tick_attempts t) self, tick_control t).
Proof.
  unfold run_iteration, tick_attempts, tick_control, detect_faces.
  destruct (ret t); cbn [negb]; [|reflexivity].
  destruct (detector t) as [faces | [msg|]]; try reflexivity.
  cbv zeta. rewrite attempt_all_app. cbn [attempt_all step].
  assert (Hdraw :
    (if 0 <? Z.of_nat (List.length faces)
     then draw_guidance (clock t) (width t) faces self else self)
    = attempt_all (guidance_attempts (clock t) 0 (width t) faces) self).
  { destruct faces as [|face rest]; [reflexivity|].
    replace (0 <? Z.of_nat (List.length (face :: rest))) with true
      by (symmetry; apply Z.ltb_lt; cbn [List.length]; lia).
    apply guide_faces_attempts. }
  rewrite Hdraw. destruct (quit_requested _); reflexivity.
Qed.

Lemma run_attempts_state (ticks : list Tick) :
  forall self : App C, fst (run ticks self) = attempt_all (run_attempts ticks) self.
Proof.
  induction ticks as [|t rest IH]; intros self; cbn [run run_attempts].
  - reflexivity.
  - rewrite run_iteration_attempts, attempt_all_app.
    destruct (tick_control t); try reflexivity. apply IH.
Qed.

(** *** The attempts the loop makes *)

Ltac in_list := cbn [In]; repeat first [left; reflexivity | right].

Lemma distance_attempts_spec (P : attempt * Q -> Prop) (now : Q) (w : Z) :
  P (Automated "Backward", now) -> P (Automated "Forward", now) ->
  Forall P (distance_attempts now w) /\
  (List.length (distance_attempts now w) <= 1)%nat.
Proof.
  intros Hb Hf. unfold distance_attempts.
  destruct (w >? TOO_CLOSE_THRESHOLD); [|destruct (w <? TOO_FAR_THRESHOLD)];
    cbn [List.length]; split; repeat constructor; assumption.
Qed.

Lemma position_attempts_spec (P : attempt * Q -> Prop) (now : Q) (cx fw : Z) :
  P (Automated "Right", now) -> P (Automated "Left", now) ->
  Forall P (position_attempts now cx fw) /\
  (List.length (position_attempts now cx fw) <= 1)%nat.
Proof.
  intros Hr Hl. unfold position_attempts.
  destruct (cx <? fw / 2 - FRAME_CENTER_THRESHOLD);
    [|destruct (cx >? fw / 2 + FRAME_CENTER_THRESHOLD)];
    cbn [List.length]; split; repeat constructor; assumption.
Qed.

Lemma guidance_attempts_spec (P : attempt * Q -> Prop) (clk : nat -> Q) (fw : Z)
  (faces : list box) :
  (forall c n, In c ["Backward"; "Forward"; "Right"; "Left"] ->
               P (Automated c, clk n)) ->
  forall n,
    Forall P (guidance_attempts clk n fw faces) /\
    (List.length (guidance_attempts clk n fw faces) <= 2 * List.length faces)%nat.
Proof.
  intros HP. induction faces as [|[[[x y] w] h] rest IH]; intros n;
    cbn [guidance_attempts].
  - split; [constructor | cbn; lia].
  - destruct (distance_attempts_spec P (clk n) w) as [Hd Hdl];
      try (apply HP; in_list).
    destruct (position_attempts_spec P (clk (S n)) (x + w / 2) fw) as [Hp Hpl];
      try (apply HP; in_list).
    destruct (IH (S (S n))) as [Hr Hrl].
    split.
    + apply Forall_app. split; [assumption|].
      apply Forall_app. split; assumption.
    + rewrite !length_app. cbn [List.length]. lia.
Qed.

Lemma manual_command_in_table (key : Z) (cmd : string) :
  manual_command key = Some cmd ->
  In cmd ["Forward"; "Backward"; "Left"; "Right"; "RotateLeft"; "RotateRight"; "Stop"].
Proof.
  unfold manual_command.
  repeat match goal with
  | |- context [if ?k =? ?c then _ else _] =>
      destruct (k =? c); [intros E; inversion E; in_list|]
  end.
  discriminate.
Qed.

Lemma tick_attempts_spec (P : attempt * Q -> Prop) (t : Tick) :
  (forall c n, In c ["Backward"; "Forward"; "Right"; "Left"] ->
               P (Automated c, clock t n)) ->
  P (Manual (Z.land (waitKey t) 255), key_time t) ->
  Forall P (tick_attempts t).
Proof.
  intros Hauto Hman. unfold tick_attempts.
  destruct (negb (ret t)); [constructor|].
  destruct (detector t) as [faces|e]; [|constructor].
  apply Forall_app. split.
  - apply (guidance_attempts_spec P (clock t) (width t) faces Hauto 0%nat).
  - constructor; [assumption | constructor].
Qed.

Lemma run_attempts_commands (ticks : list Tick) :
  Forall (fun p => forall cmd, attempt_command (fst p) = Some cmd ->
     In cmd ["Forward"; "Backward"; "Left"; "Right"; "RotateLeft"; "RotateRight"; "Stop"])
    (run_attempts ticks).
Proof.
  induction ticks as [|t rest IH]; cbn [run_attempts]; [constructor|].
  apply Forall_app. split.
  - apply tick_attempts_spec.
    + intros c n Hc cmd E. cbn in E. inversion E; subst.
      cbn [In] in Hc. destruct Hc as [<- | [<- | [<- | [<- | []]]]]; in_list.
    + intros cmd E. cbn in E. exact (manual_command_in_table _ _ E).
  - destruct (tick_control t); try constructor. exact IH.
Qed.

(** X1: the state [run] leaves is the state left by the attempts of its
    passes taken one after the other ([draw_guidance]'s calls of
    [send_mqtt_command] face by face, then [handle_manual_control]), up to
    the pass that ends the loop.  So over a whole run, whatever the frames,
    faces, keys and clock readings, two dispatches are at least
    [COMMAND_RATE_LIMIT] apart and [last_command_time] does not go down. *)
Theorem run_is_attempt_sequence (ticks : list Tick) (self : App C) :
  fst (run ticks self) = attempt_all (run_attempts ticks) self /\
  ForallOrdPairs (fun t1 t2 => (COMMAND_RATE_LIMIT <= t2 - t1)%Q)
    (dispatch_times (run_attempts ticks) self) /\
  (last_command_time self <= last_command_time (fst (run ticks self)))%Q.
Proof.
  split; [apply run_attempts_state|]. split.
  - exact (proj1 (proj2 (dispatch_trace_invariant (run_attempts ticks) self))).
  - rewrite run_attempts_state. apply attempt_all_time_monotone.
Qed.

(** X2: along a sequence of attempts the channel accepts exactly one message
    for each attempt counted as a dispatch, and never more messages than
    there are attempts. *)
Theorem dispatches_are_counted (attempts : list (attempt * Q)) (self : App C) :
  List.length (sent (mqtt_client (attempt_all attempts self)))
  = (List.length (dispatch_times attempts self)
     + List.length (sent (mqtt_client self)))%nat /\
  (List.length (dispatch_times attempts self) <= List.length attempts)%nat.
Proof.
  apply attempt_all_sent_length.
Qed.

(** X3: [run] only adds to what the channel has accepted, and every message
    it adds is on the topic ["VR_control"] and carries one of the seven
    command names. *)
Theorem run_publishes_commands (ticks : list Tick) (self : App C) :
  exists new,
    sent (mqtt_client (fst (run ticks self))) = (new ++ sent (mqtt_client self))%list /\
    Forall (fun m => fst m = "VR_control" /\
      In (snd m)
        ["Forward"; "Backward"; "Left"; "Right"; "RotateLeft"; "RotateRight"; "Stop"])
      new.
Proof.
  rewrite run_attempts_state.
  destruct (attempt_all_log _ (run_attempts ticks) self (run_attempts_commands ticks))
    as (new & Hsent & Hnew & _).
  exists new. split; assumption.
Qed.

(** X4: [draw_guidance] adds at most two messages per face, each on
    ["VR_control"] and carrying ["Backward"], ["Forward"], ["Right"] or
    ["Left"]: guidance never sends ["Stop"] or a rotation. *)
Theorem draw_guidance_publishes_corrections (clk : nat -> Q) (fw : Z)
  (faces : list box) (self : App C) :
  exists new,
    sent (mqtt_client (draw_guidance clk fw faces self))
    = (new ++ sent (mqtt_client self))%list /\
    Forall (fun m => fst m = "VR_control" /\
                     In (snd m) ["Backward"; "Forward"; "Right"; "Left"]) new /\
    (List.length new <= 2 * List.length faces)%nat.
Proof.
  unfold draw_guidance. rewrite guide_faces_attempts.
  destruct (guidance_attempts_spec
              (fun p => forall cmd, attempt_command (fst p) = Some cmd ->
                 In cmd ["Backward"; "Forward"; "Right"; "Left"])
              clk fw faces) with (n := 0%nat) as [Hcmds Hlen].
  { intros c n Hc cmd E. cbn in E. inversion E; subst. exact Hc. }
  destruct (attempt_all_log _ _ self Hcmds) as (new & Hsent & Hnew & Hle).
  exists new. repeat split; [assumption | assumption | lia].
Qed.

(** X5: a pass through the loop body all of whose clock readings lie within
    a window shorter than [COMMAND_RATE_LIMIT] publishes at most one
    message, however many faces the frame shows and whatever key is
    pressed. *)
Theorem one_message_per_pass (t : Tick) (self : App C) (start : Q) :
  (forall n, (start <= clock t n /\ clock t n < start + COMMAND_RATE_LIMIT)%Q) ->
  (start <= key_time t /\ key_time t < start + COMMAND_RATE_LIMIT)%Q ->
  (List.length (sent (mqtt_client (fst (run_iteration t self))))
   <= S (List.length (sent (mqtt_client self))))%nat.
Proof.
  intros Hclock Hkey. rewrite run_iteration_attempts. cbn [fst].
  apply (attempt_all_window _ self start).
  apply tick_attempts_spec.
  - intros c n _. cbn [snd]. apply Hclock.
  - cbn [snd]. exact Hkey.
Qed.

End Log.

(** ** The dispatch state of face_guidance_mqtt.py over time *)

Section Memory.

Import FaceGuidanceMQTT.

Context {C : Type} `{Channel C}.

(** [last_command] is [None] while the log is the initial one, and names the
    message on top of the log otherwise; attempts keep it so. *)
Lemma attempt_all_tracks_log (base : list (string * string))
  (attempts : list (attempt * Q)) :
  forall self : App C,
    (last_command self = None /\ sent (mqtt_client self) = base) \/
    (exists c older, last_command self = Some c /\
                     sent (mqtt_client self) = (TOPIC, c) :: older) ->
    (last_command (attempt_all attempts self) = None /\
     sent (mqtt_client (attempt_all attempts self)) = base) \/
    (exists c older, last_command (attempt_all attempts self) = Some c /\
                     sent (mqtt_client (attempt_all attempts self)) = (TOPIC, c) :: older).
Proof.
  induction attempts as [|[a now] rest IH]; intros self Hinv; cbn [attempt_all].
  - exact Hinv.
  - apply IH.
    destruct (step_outcome a now self)
      as [(Hs & Hl & _) | (cmd & _ & Hs & Hl & _)]; rewrite Hs, Hl.
    + exact Hinv.
    + right. exists cmd, (sent (mqtt_client self)). split; reflexivity.
Qed.

(** X6: from start-up on, [last_command] is [None] exactly as long as
    [run] has published nothing, and afterwards it is the command of the
    message the channel accepted last. *)
Theorem last_command_is_last_sent (ticks : list Tick) (client : C) :
  match last_command (fst (run ticks (init client))) with
  | None => sent (mqtt_client (fst (run ticks (init client)))) = sent client
  | Some c =>
      exists older,
        sent (mqtt_client (fst (run ticks (init client)))) = ("VR_control", c) :: older
  end.
Proof.
  rewrite run_attempts_state.
  destruct (attempt_all_tracks_log (sent client) (run_attempts ticks) (init client))
    as [[Hl Hs] | (c & older & Hl & Hs)].
  - left. split; reflexivity.
  - rewrite Hl. exact Hs.
  - rewrite Hl. exists older. exact Hs.
Qed.

Lemma automated_log (base : list (string * string)) (attempts : list (attempt * Q)) :
  forall (self : App C) (new : list (string * string)),
    Forall (fun p => exists c, fst p = Automated c) attempts ->
    sent (mqtt_client self) = (new ++ base)%list ->
    (forall m rest, new = m :: rest -> last_command self = Some (snd m) /\ fst m = TOPIC) ->
    (forall pre x y post, new = (pre ++ x :: y :: post)%list -> x <> y) ->
    exists new',
      sent (mqtt_client (attempt_all attempts self)) = (new' ++ base)%list /\
      (forall pre x y post, new' = (pre ++ x :: y :: post)%list -> x <> y).
Proof.
  induction attempts as [|[a now] rest IH]; intros self new Hauto Hsent Hhead Hnew;
    cbn [attempt_all].
  - exists new. split; assumption.
  - inversion Hauto as [|? ? [c Ha] Hrest]; subst. cbn [fst] in Ha. subst a.
    destruct (step_outcome (Automated c) now self)
      as [(Hs & Hl & _) | (cmd & Hcmd & Hs & Hl & _ & _ & _ & Hfresh)].
    + apply (IH _ new Hrest).
      * rewrite Hs. exact Hsent.
      * intros m more E. rewrite Hl. exact (Hhead m more E).
      * exact Hnew.
    + cbn [attempt_command] in Hcmd. inversion Hcmd; subst cmd.
      apply (IH _ ((TOPIC, c) :: new) Hrest).
      * rewrite Hs, Hsent. reflexivity.
      * intros m more E. inversion E; subst. rewrite Hl. split; reflexivity.
      * intros pre x y post E. destruct pre as [|p pre].
        -- cbn [app] in E. inversion E as [[Hx Hrest']]. subst x.
           destruct (Hhead y post Hrest') as [Hlast _].
           intros <-. cbn [snd] in Hlast. exact (Hfresh eq_refl Hlast).
        -- cbn [app] in E. inversion E as [[Hp Hrest']].
           exact (Hnew pre x y post Hrest').
Qed.

(** X7: from start-up on, a sequence of automated attempts never makes the
    channel accept the same message twice in a row, whatever the readings
    of the clock. *)
Theorem automated_never_repeats (attempts : list (attempt * Q)) (client : C) :
  Forall (fun p => exists c, fst p = Automated c) attempts ->
  exists new,
    sent (mqtt_client (attempt_all attempts (init client))) = (new ++ sent client)%list /\
    (forall pre x y post, new = (pre ++ x :: y :: post)%list -> x <> y).
Proof.
  intros Hauto.
  apply (automated_log (sent client) attempts (init client) [] Hauto).
  - reflexivity.
  - intros m rest E. discriminate E.
  - intros pre x y post E. destruct pre; discriminate E.
Qed.

(** X8: on a channel whose [publish] always raises, [run] never changes
    the log nor the dispatch state. *)
Theorem run_without_channel (ticks : list Tick) (self : App C) :
  (forall c topic payload, snd (publish c topic payload) <> None) ->
  sent (mqtt_client (fst (run ticks self))) = sent (mqtt_client self) /\
  last_command (fst (run ticks self)) = last_command self /\
  last_command_time (fst (run ticks self)) = last_command_time self.
Proof.
  intros Hdown. rewrite run_attempts_state.
  generalize (run_attempts ticks) as attempts. intros attempts. revert self.
  induction attempts as [|[a now] rest IH]; intros self; cbn [attempt_all].
  - repeat split.
  - destruct (IH (step a now self)) as (Hs & Hl & Ht). rewrite Hs, Hl, Ht.
    destruct (step_outcome a now self)
      as [(Hs' & Hl' & Ht' & _) | (cmd & Hcmd & Hs' & _ & _ & _ & Hrate & Hfresh)].
    + repeat split; assumption.
    + exfalso.
      assert (Hstep : step a now self = fst (after_publish now cmd self)).
      { destruct a as [c | key]; cbn [step]; cbn [attempt_command] in Hcmd.
        - inversion Hcmd; subst c.
          rewrite send_mqtt_command_passes; [reflexivity | assumption | auto].
        - apply handle_manual_control_passes; assumption. }
      rewrite Hstep in Hs'. unfold after_publish in Hs'.
      destruct (publish (mqtt_client self) TOPIC cmd) as [client [msg|]] eqn:E.
      * cbn [fst mqtt_client] in Hs'. rewrite (publish_raises _ _ _ _ _ E) in Hs'.
        apply (f_equal (@List.length _)) in Hs'. cbn [List.length] in Hs'. lia.
      * apply (Hdown (mqtt_client self) TOPIC cmd). rewrite E. reflexivity.
Qed.

(** X9: a manual dispatch writes the de-duplication memory of the automated
    path: afterwards an automated attempt of the same command is refused at
    every reading, and an automated attempt of any other command reaches
    [publish] as soon as [COMMAND_RATE_LIMIT] has passed. *)
Theorem manual_sets_dedup_memory (key : Z) (cmd : string) (now : Q) (self : App C)
  (client : C) :
  manual_command key = Some cmd ->
  (COMMAND_RATE_LIMIT <= now - last_command_time self)%Q ->
  publish (mqtt_client self) TOPIC cmd = (client, None) ->
  let self' := handle_manual_control key now self in
  (forall later, send_mqtt_command later cmd self' = (self', false)) /\
  (forall other later,
     other <> cmd ->
     (COMMAND_RATE_LIMIT <= later - now)%Q ->
     send_mqtt_command later other self' = after_publish later other self').
Proof.
  intros Hkey Hrate Hpub self'.
  assert (E : self' = {| mqtt_client := client; last_command_time := now;
                         last_command := Some cmd |}).
  { subst self'. rewrite (handle_manual_control_passes key cmd) by assumption.
    unfold after_publish. rewrite Hpub. reflexivity. }
  clearbody self'. subst self'. split.
  - intros later. apply send_mqtt_command_repeated. reflexivity.
  - intros other later Hother Hlater. apply send_mqtt_command_passes.
    + exact Hlater.
    + cbn [last_command]. intros E. inversion E. congruence.
Qed.


(** X11: only the low byte of what [cv2.waitKey] returns matters to a pass
    through the loop body. *)
Theorem run_iteration_low_byte (t : Tick) (key : Z) (self : App C) :
  key mod 256 = waitKey t mod 256 ->
  run_iteration
    {| ret := ret t; width := width t; detector := detector t; clock := clock t;
       waitKey := key; key_time := key_time t |} self
  = run_iteration t self.
Proof.
  intros Hbyte. unfold run_iteration. cbn [ret width detector clock waitKey key_time].
  change 255 with (Z.ones 8). rewrite !Z.land_ones by lia.
  change (2 ^ 8) with 256. rewrite Hbyte. reflexivity.
Qed.

End Memory.

(** ** face-detect-streaming.py *)

Section Streaming.

(** X12: the streaming application prints ["S"] and answers ["TOO_CLOSE"]
    exactly for widths above 200, prints ["W"] and answers ["TOO_FAR"]
    exactly for widths below 100, and prints nothing and answers
    ["OPTIMAL"] exactly for widths from 100 to 200. *)
Theorem streaming_distance_guidance (w : Z) (out : FaceGuidance.stdout) :
  (FaceGuidance.analyze_face_distance w out = ("S" :: out, "TOO_CLOSE") <-> w > 200) /\
  (FaceGuidance.analyze_face_distance w out = ("W" :: out, "TOO_FAR") <-> w < 100) /\
  (FaceGuidance.analyze_face_distance w out = (out, "OPTIMAL") <-> 100 <= w <= 200).
Proof.
  unfold FaceGuidance.analyze_face_distance, FaceGuidance.TOO_CLOSE_THRESHOLD,
    FaceGuidance.TOO_FAR_THRESHOLD.
  destruct (Z.gtb_spec w 200); [|destruct (Z.ltb_spec w 100)];
    (split; [|split]); (split; intros E); try reflexivity; try lia;
    exfalso; inversion E.
Qed.

(** X13: the streaming application prints ["D"] and answers ["TOO_LEFT"]
    exactly for centres below [frame_width // 2 - 50], prints ["A"] and
    answers ["TOO_RIGHT"] exactly for centres above [frame_width // 2 + 50],
    and prints nothing and answers ["CENTERED"] exactly in between. *)
Theorem streaming_position_guidance (cx fw : Z) (out : FaceGuidance.stdout) :
  (FaceGuidance.analyze_face_position cx fw out = ("D" :: out, "TOO_LEFT")
   <-> cx < fw / 2 - 50) /\
  (FaceGuidance.analyze_face_position cx fw out = ("A" :: out, "TOO_RIGHT")
   <-> cx > fw / 2 + 50) /\
  (FaceGuidance.analyze_face_position cx fw out = (out, "CENTERED")
   <-> fw / 2 - 50 <= cx <= fw / 2 + 50).
Proof.
  unfold FaceGuidance.analyze_face_position, FaceGuidance.FRAME_CENTER_THRESHOLD.
  cbv zeta.
  destruct (Z.ltb_spec cx (fw / 2 - 50)); [|destruct (Z.gtb_spec cx (fw / 2 + 50))];
    (split; [|split]); (split; intros E); try reflexivity; try lia;
    exfalso; inversion E.
Qed.



(** X15: [draw_guidance] of the streaming application only adds to the
    standard output: at most two lines per face, each one of the letters
    ["S"], ["W"], ["D"], ["A"]. *)
Theorem streaming_draw_guidance_prints (fw : Z) (face_rects : list (Z * Z * Z * Z))
  (out : FaceGuidance.stdout) :
  exists printed,
    FaceGuidance.draw_guidance fw face_rects out = (printed ++ out)%list /\
    Forall (fun line => In line ["S"; "W"; "D"; "A"]) printed /\
    (List.length printed <= 2 * List.length face_rects)%nat.
Proof.
  revert out. induction face_rects as [|[[[x y] w] h] rest IH]; intros out;
    cbn [FaceGuidance.draw_guidance].
  - exists []. repeat split; [constructor | cbn; lia].
  - cbv zeta.
    assert (Hd : exists p1,
      fst (FaceGuidance.analyze_face_distance w out) = (p1 ++ out)%list /\
      Forall (fun line => In line ["S"; "W"; "D"; "A"]) p1 /\
      (List.length p1 <= 1)%nat).
    { unfold FaceGuidance.analyze_face_distance.
      destruct (w >? _); [exists ["S"] | destruct (w <? _); [exists ["W"] | exists []]];
        repeat split; repeat constructor; cbn [In]; tauto. }
    destruct Hd as (p1 & E1 & F1 & L1).
    destruct (FaceGuidance.analyze_face_distance w out) as [out1 d].
    cbn [fst] in E1. subst out1.
    assert (Hp : exists p2,
      fst (FaceGuidance.analyze_face_position (x + w / 2) fw (p1 ++ out)%list)
      = (p2 ++ p1 ++ out)%list /\
      Forall (fun line => In line ["S"; "W"; "D"; "A"]) p2 /\
      (List.length p2 <= 1)%nat).
    { unfold FaceGuidance.analyze_face_position. cbv zeta.
      destruct (_ <? _); [exists ["D"] | destruct (_ >? _); [exists ["A"] | exists []]];
        repeat split; repeat constructor; cbn [In]; tauto. }
    destruct Hp as (p2 & E2 & F2 & L2).
    destruct (FaceGuidance.analyze_face_position _ _ _) as [out2 p].
    cbn [fst] in E2. subst out2.
    destruct (IH (p2 ++ p1 ++ out)%list) as (p3 & E3 & F3 & L3).
    exists (p3 ++ p2 ++ p1)%list. rewrite E3. repeat split.
    + rewrite <- !app_assoc. reflexivity.
    + apply Forall_app. split; [assumption|]. apply Forall_app. split; assumption.
    + rewrite !length_app. cbn [List.length]. lia.
Qed.


(** X17: as long as frames are grabbed, nobody interrupts and ['q'] is not
    pressed, the loop of the streaming application goes through all the
    frames, whatever the detector raises on them. *)
Theorem streaming_run_survives_detector (ticks : list FaceGuidance.Tick)
  (out : FaceGuidance.stdout) :
  Forall (fun t =>
            FaceGuidance.ret t = true /\
            FaceGuidance.detector t <> Raise KeyboardInterrupt /\
            Z.land (FaceGuidance.waitKey t) 255 <> ord "q") ticks ->
  snd (FaceGuidance.run ticks out) = FaceGuidance.Continue.
Proof.
  intros Hall. revert out.
  induction Hall as [|t rest (Hret & Hdet & Hkey) _ IH]; intros out;
    cbn [FaceGuidance.run].
  - reflexivity.
  - unfold FaceGuidance.run_iteration, FaceGuidance.detect_faces.
    rewrite Hret. cbn [negb].
    apply Z.eqb_neq in Hkey.
    destruct (FaceGuidance.detector t) as [rects | [msg|]];
      [| | exfalso; apply Hdet; reflexivity];
      cbv zeta; rewrite Hkey; apply IH.
Qed.

End Streaming.

(** ** The loop of MQTT.py *)

Section KeyboardLoop.

Import MQTT.

Context {C : Type} `{Channel C}.

Lemma lower_ascii_idempotent (c : ascii) : lower_ascii (lower_ascii c) = lower_ascii c.
Proof.
  destruct c as [[] [] [] [] [] [] [] []]; reflexivity.
Qed.

Lemma lower_idempotent (s : string) : lower (lower s) = lower s.
Proof.
  induction s as [|c s IH]; cbn [lower].
  - reflexivity.
  - rewrite lower_ascii_idempotent, IH. reflexivity.
Qed.

(** What [select] answers: one of the five commands, or no command. *)
Lemma select_cases (key : string) :
  (snd (select key) = false /\
   In (fst (select key)) ["Forward"; "Backward"; "Left"; "Right"; "Stop"]) \/
  fst (select key) = "".
Proof.
  unfold select.
  repeat match goal with
  | |- context [if String.eqb ?k ?c then _ else _] =>
      destruct (String.eqb k c);
      [first [left; split; [reflexivity | cbn [fst In]; tauto] | right; reflexivity]|]
  end.
  right. reflexivity.
Qed.

(** X18: [main] does not tell upper case from lower case: it treats the
    keys read as it treats their lower-case forms, and lowering twice is
    lowering once. *)
Theorem main_ignores_case (keys : list string) (client : C) :
  main keys client = main (map lower keys) client /\
  map lower (map lower keys) = map lower keys.
Proof.
  split.
  - revert client. induction keys as [|k rest IH]; intros client; cbn [map main].
    + reflexivity.
    + rewrite lower_idempotent.
      destruct (select (lower k)) as [cmd stop].
      destruct stop; [reflexivity|].
      destruct (negb (String.eqb cmd "")); [|apply IH].
      destruct (publish client TOPIC cmd) as [client' [msg|]]; [reflexivity | apply IH].
  - rewrite map_map. apply map_ext. intros k. apply lower_idempotent.
Qed.

(** X19: [main] only adds to what the channel has accepted: at most one
    message per key read, each on ["VR_control"] and carrying
    ["Forward"], ["Backward"], ["Left"], ["Right"] or ["Stop"]. *)
Theorem main_publishes_commands (keys : list string) (client : C) :
  exists new,
    sent (fst (main keys client)) = (new ++ sent client)%list /\
    Forall (fun m => fst m = "VR_control" /\
                     In (snd m) ["Forward"; "Backward"; "Left"; "Right"; "Stop"]) new /\
    (List.length new <= List.length keys)%nat.
Proof.
  revert client. induction keys as [|k rest IH]; intros client; cbn [main].
  - exists []. repeat split; constructor.
  - pose proof (select_cases (lower k)) as Hsel.
    destruct (select (lower k)) as [cmd stop]. cbn [fst snd] in Hsel.
    destruct stop.
    { exists []. repeat split; [constructor | cbn; lia]. }
    destruct (String.eqb_spec cmd "") as [-> | Hcmd]; cbn [negb].
    { destruct (IH client) as (new & Hs & Hf & Hl).
      exists new. repeat split; [assumption | assumption | cbn [List.length]; lia]. }
    destruct Hsel as [[_ Hin] | Hempty]; [|contradiction].
    destruct (publish client TOPIC cmd) as [client' [msg|]] eqn:E.
    + exists []. cbn [fst]. rewrite (publish_raises _ _ _ _ _ E).
      repeat split; [constructor | cbn; lia].
    + destruct (IH client') as (new & Hs & Hf & Hl).
      exists (new ++ [(TOPIC, cmd)])%list.
      rewrite Hs, (publish_returns _ _ _ _ E), <- app_assoc. repeat split.
      * apply Forall_app. split; [assumption|].
        constructor; [|constructor]. split; [reflexivity | exact Hin].
      * rewrite length_app. cbn [List.length]. lia.
Qed.

Lemma main_app_aux (first second : list string) (client : C) :
  main (first ++ second) client =
    match main first client with
    | (client', Reading) => main second client'
    | stopped => stopped
    end.
Proof.
  revert client. induction first as [|k rest IH]; intros client; cbn [app main].
  - reflexivity.
  - destruct (select (lower k)) as [cmd stop].
    destruct stop; [reflexivity|].
    destruct (negb (String.eqb cmd "")); [|apply IH].
    destruct (publish client TOPIC cmd) as [client' [msg|]]; [reflexivity | apply IH].
Qed.


(** X21: once [q] or [Q] is read, [main] leaves the loop: nothing is
    published for that key and none of the later keys is read. *)
Theorem main_quits (first rest : list string) (k : string) (client client' : C) :
  lower k = "q" ->
  main first client = (client', Reading) ->
  main (first ++ k :: rest) client = (client', Quit).
Proof.
  intros Hq Hfirst. rewrite main_app_aux, Hfirst. cbn [main]. rewrite Hq. reflexivity.
Qed.

End KeyboardLoop.

(** ** The keyboard tables of the two programs *)


(** ** The additional properties on sample runs *)

Lemma one_message_per_pass_witness :
  (forall n : nat,
     (1 <= FaceGuidanceMQTT.clock crowded_pass n /\
      FaceGuidanceMQTT.clock crowded_pass n < 1 + FaceGuidanceMQTT.COMMAND_RATE_LIMIT)%Q) /\
  (1 <= FaceGuidanceMQTT.key_time crowded_pass /\
   FaceGuidanceMQTT.key_time crowded_pass < 1 + FaceGuidanceMQTT.COMMAND_RATE_LIMIT)%Q /\
  sent (FaceGuidanceMQTT.mqtt_client
          (fst (FaceGuidanceMQTT.run_iteration crowded_pass
                  (FaceGuidanceMQTT.init fresh_client))))
    = [("VR_control", "Forward")] /\
  (List.length
     (sent (FaceGuidanceMQTT.mqtt_client
              (fst (FaceGuidanceMQTT.run_iteration crowded_pass
                      (FaceGuidanceMQTT.init fresh_client)))))
   <= S (List.length (sent (FaceGuidanceMQTT.mqtt_client
                              (FaceGuidanceMQTT.init fresh_client)))))%nat.
Proof.
  assert (Hclock : forall n : nat,
     (1 <= FaceGuidanceMQTT.clock crowded_pass n /\
      FaceGuidanceMQTT.clock crowded_pass n < 1 + FaceGuidanceMQTT.COMMAND_RATE_LIMIT)%Q)
    by (intros n; split; [apply Qle_refl | reflexivity]).
  assert (Hkey :
     (1 <= FaceGuidanceMQTT.key_time crowded_pass /\
      FaceGuidanceMQTT.key_time crowded_pass < 1 + FaceGuidanceMQTT.COMMAND_RATE_LIMIT)%Q)
    by (split; [apply Qle_refl | reflexivity]).
  split; [exact Hclock|]. split; [exact Hkey|]. split; [reflexivity|].
  exact (one_message_per_pass crowded_pass (FaceGuidanceMQTT.init fresh_client) 1
           Hclock Hkey).
Defined.

Lemma automated_never_repeats_witness :
  let attempts :=
    [ (FaceGuidanceMQTT.Automated "Forward", 1%Q);
      (FaceGuidanceMQTT.Automated "Forward", 2%Q);
      (FaceGuidanceMQTT.Automated "Right", 3%Q) ] in
  Forall (fun p => exists c, fst p = FaceGuidanceMQTT.Automated c) attempts /\
  sent (FaceGuidanceMQTT.mqtt_client
          (FaceGuidanceMQTT.attempt_all attempts (FaceGuidanceMQTT.init fresh_client)))
    = [("VR_control", "Right"); ("VR_control", "Forward")] /\
  exists new,
    sent (FaceGuidanceMQTT.mqtt_client
            (FaceGuidanceMQTT.attempt_all attempts (FaceGuidanceMQTT.init fresh_client)))
    = (new ++ sent fresh_client)%list /\
    (forall pre x y post, new = (pre ++ x :: y :: post)%list -> x <> y).
Proof.
  intros attempts.
  assert (Hauto : Forall (fun p => exists c, fst p = FaceGuidanceMQTT.Automated c) attempts)
    by (repeat constructor; eexists; reflexivity).
  split; [exact Hauto|]. split; [reflexivity|].
  exact (automated_never_repeats attempts fresh_client Hauto).
Defined.

Lemma run_without_channel_witness :
  (forall (c : DownClient) topic payload, snd (publish c topic payload) <> None) /\
  sent (FaceGuidanceMQTT.mqtt_client
          (fst (FaceGuidanceMQTT.run [crowded_pass; crowded_pass]
                  (FaceGuidanceMQTT.init Down)))) = [] /\
  FaceGuidanceMQTT.last_command
    (fst (FaceGuidanceMQTT.run [crowded_pass; crowded_pass] (FaceGuidanceMQTT.init Down)))
    = None /\
  FaceGuidanceMQTT.last_command_time
    (fst (FaceGuidanceMQTT.run [crowded_pass; crowded_pass] (FaceGuidanceMQTT.init Down)))
    = 0%Q.
Proof.
  assert (Hdown : forall (c : DownClient) topic payload,
             snd (publish c topic payload) <> None)
    by (intros c topic payload; discriminate).
  split; [exact Hdown|].
  exact (run_without_channel [crowded_pass; crowded_pass] (FaceGuidanceMQTT.init Down)
           Hdown).
Defined.

Lemma manual_sets_dedup_memory_witness :
  let self := FaceGuidanceMQTT.init fresh_client in
  let self' := FaceGuidanceMQTT.handle_manual_control 119 1 self in
  FaceGuidanceMQTT.manual_command 119 = Some "Forward" /\
  (FaceGuidanceMQTT.COMMAND_RATE_LIMIT <= 1 - FaceGuidanceMQTT.last_command_time self)%Q /\
  FaceGuidanceMQTT.send_mqtt_command 100 "Forward" self' = (self', false) /\
  FaceGuidanceMQTT.send_mqtt_command 2 "Right" self'
    = FaceGuidanceMQTT.after_publish 2 "Right" self'.
Proof.
  intros self self'.
  assert (Hrate : (FaceGuidanceMQTT.COMMAND_RATE_LIMIT
                   <= 1 - FaceGuidanceMQTT.last_command_time self)%Q)
    by (cbv; discriminate).
  assert (Hpub : publish (FaceGuidanceMQTT.mqtt_client self) FaceGuidanceMQTT.TOPIC "Forward"
                 = ({| delivered := [("VR_control", "Forward")]; script := [] |}, None))
    by reflexivity.
  destruct (manual_sets_dedup_memory 119 "Forward" 1 self _ eq_refl Hrate Hpub)
    as [Hsame Hother].
  split; [reflexivity|]. split; [exact Hrate|]. split.
  - exact (Hsame 100%Q).
  - apply Hother; [discriminate | cbv; discriminate].
Defined.

Lemma run_iteration_low_byte_witness :
  1048695 mod 256 = FaceGuidanceMQTT.waitKey crowded_pass mod 256 /\
  FaceGuidanceMQTT.run_iteration
    {| FaceGuidanceMQTT.ret := FaceGuidanceMQTT.ret crowded_pass;
       FaceGuidanceMQTT.width := FaceGuidanceMQTT.width crowded_pass;
       FaceGuidanceMQTT.detector := FaceGuidanceMQTT.detector crowded_pass;
       FaceGuidanceMQTT.clock := FaceGuidanceMQTT.clock crowded_pass;
       FaceGuidanceMQTT.waitKey := 1048695;
       FaceGuidanceMQTT.key_time := FaceGuidanceMQTT.key_time crowded_pass |}
    (FaceGuidanceMQTT.init fresh_client)
  = FaceGuidanceMQTT.run_iteration crowded_pass (FaceGuidanceMQTT.init fresh_client).
Proof.
  split; [reflexivity|].
  exact (run_iteration_low_byte crowded_pass 1048695
           (FaceGuidanceMQTT.init fresh_client) eq_refl).
Defined.

Lemma streaming_run_survives_detector_witness :
  Forall (fun t =>
            FaceGuidance.ret t = true /\
            FaceGuidance.detector t <> Raise KeyboardInterrupt /\
            Z.land (FaceGuidance.waitKey t) 255 <> ord "q") streaming_frames /\
  FaceGuidance.run streaming_frames []
    = (["W"; "Face detection error: cv2.error"], FaceGuidance.Continue) /\
  snd (FaceGuidance.run streaming_frames []) = FaceGuidance.Continue.
Proof.
  assert (Hall : Forall (fun t =>
            FaceGuidance.ret t = true /\
            FaceGuidance.detector t <> Raise KeyboardInterrupt /\
            Z.land (FaceGuidance.waitKey t) 255 <> ord "q") streaming_frames)
    by (repeat constructor; discriminate).
  split; [exact Hall|]. split; [reflexivity|].
  exact (streaming_run_survives_detector streaming_frames [] Hall).
Defined.

Lemma main_quits_witness :
  MQTT.lower "Q" = "q" /\
  MQTT.main ["w"] fresh_client
    = ({| delivered := [("VR_control", "Forward")]; script := [] |}, MQTT.Reading) /\
  MQTT.main (["w"] ++ "Q" :: ["s"; "s"]) fresh_client
    = ({| delivered := [("VR_control", "Forward")]; script := [] |}, MQTT.Quit).
Proof.
  split; [reflexivity|]. split; [reflexivity|].
  exact (main_quits ["w"] ["s"; "s"] "Q" fresh_client
           {| delivered := [("VR_control", "Forward")]; script := [] |}
           eq_refl eq_refl).
Defined.
